(** * LegalIntel: the task tracker

    A shallow embedding of the task mechanism of the application:

    - [createTask], [updateTask], [processClassifyDocumentTask] and
      [processAskQuestionTask] of [src/app/actions.ts] (the server side);
    - the [useTask] hook of [hooks/use-task.ts] (the client side).

    The hosted document database, the two generative flows and the clock are
    collaborators outside the repository.  They are modelled by an oracle
    [Env] that answers every request with the way its promise settles; the
    store itself is explicit state. *)

From stdpp Require Import gmap strings list fin_maps pretty.

(** ** Promises and completions *)

(** How a promise settles.  [Forever] is a promise that never settles. *)
Inductive Promise (A : Type) :=
| Fulfilled (a : A)
| Rejected (message : string)
| Forever.
Arguments Fulfilled {A} a.
Arguments Rejected {A} message.
Arguments Forever {A}.

(** [T | { error: string }], the return type of both flows. *)
Inductive OrError (A : Type) :=
| Value (a : A)
| ErrorValue (error : string).
Arguments Value {A} a.
Arguments ErrorValue {A} error.

(** How the run of an [async] function ends: it returns, an exception
    leaves it, or it stops for good at an [await] whose promise never
    settles. *)
Inductive Completion (A : Type) :=
| Returned (a : A)
| Thrown (message : string)
| Suspended.
Arguments Returned {A} a.
Arguments Thrown {A} message.
Arguments Suspended {A}.

(** ** JavaScript numbers

    Numbers are IEEE doubles in the source.  Nothing below depends on their
    arithmetic, so the type and the five operations the code applies to them
    form an interface. *)
Class JsNumber (number : Type) := {
  mul : number → number → number;
  positive : number → bool;
  Math_min : list number → number;
  Math_max : list number → number;
  toLocaleString : number → string;
}.

(** * [src/app/actions.ts] *)
Module Actions.

Section Tasks.

(** ** JavaScript values

    The server timestamp and the two result shapes that [actions.ts] only
    stores are parameters. *)

Context `{JsNumber number}.
Context {Timestamp : Type}.
Context {DocumentAnalysis : Type}.
Context {AskDocumentQuestionOutput : Type}.

(** A value of type [any]. *)
#[local] Unset Elimination Schemes.
Inductive Json :=
| JUndefined
| JNull
| JBool (b : bool)
| JNum (n : number)
| JStr (s : string)
| JArr (items : list Json)
| JObj (fields : list (string * Json)).
#[local] Set Elimination Schemes.

Fixpoint assoc (k : string) (fields : list (string * Json)) : option Json :=
  match fields with
  | [] => None
  | (k', v) :: rest => if String.eqb k k' then Some v else assoc k rest
  end.

(** [v.k]: a [TypeError] ([None]) on [undefined] and [null], [undefined] for
    a property that is not there. *)
Definition prop (v : Json) (k : string) : option Json :=
  match v with
  | JUndefined | JNull => None
  | JObj fields => Some (default JUndefined (assoc k fields))
  | _ => Some JUndefined
  end.

(** [!s] for a string. *)
Definition falsy (s : string) : bool := String.eqb s "".

(** ** Documents *)

(** The part of [ClassifyDocumentOutput] that [actions.ts] reads, and the
    rest of it as one opaque value. *)
Record ExpenditureAnalysis := {
  proceedingType : string;
  estimatedHearings : number;
  costFactors : list string;
  disclaimer : string;
}.

Record ClassifyDocumentOutput := {
  analysis : DocumentAnalysis;
  expenditureAnalysis : ExpenditureAnalysis;
  lawyerCategory : string;
}.

Record Lawyer := {
  id : string;
  name : string;
  specialty : string;
  location : string;
  contact : string;
  costPerHearing : number;
}.

(** [finalResult]: [{...result, recommendedLawyers, expenditureAnalysis:
    {...result.expenditureAnalysis, estimatedCostRange}}]. *)
Record AnalysisResult := {
  classification : ClassifyDocumentOutput;
  recommendedLawyers : list Lawyer;
  estimatedCostRange : string;
}.

(** The [result] field of a task: [any] in the source, written with one of
    two shapes. *)
Inductive TaskResult :=
| Analysis (r : AnalysisResult)
| Answer (r : AskDocumentQuestionOutput).

(** [users/{userId}/tasks/{taskId}] *)
Record TaskDoc := {
  type : string;
  payload : Json;
  status : string;
  createdAt : Timestamp;
  result : option TaskResult;
  error : option string;
}.

(** The argument of [createTask]. *)
Record TaskData := {
  td_type : string;
  td_payload : Json;
}.

(** The argument of [taskRef.update]: the fields it sets. *)
Record TaskUpdate := {
  set_status : string;
  set_result : option TaskResult;
  set_error : option string;
}.

Definition merge (d : TaskDoc) (u : TaskUpdate) : TaskDoc :=
  {| type := type d;
     payload := payload d;
     status := set_status u;
     createdAt := createdAt d;
     result := match set_result u with Some r => Some r | None => result d end;
     error := match set_error u with Some e => Some e | None => error d end |}.

(** [users/{userId}/history/{id}] *)
Record HistoryDoc := {
  h_result : AnalysisResult;
  h_fileName : Json;
  h_fileAsBase64 : Json;
  h_mimeType : Json;
  h_createdAt : Timestamp;
}.

(** The three collections the task mechanism touches.  Task and history
    documents are keyed by (user id, document id). *)
Record Firestore := {
  tasks : gmap (string * string) TaskDoc;
  history : gmap (string * string) HistoryDoc;
  lawyers : list Lawyer;
}.

(** ** The environment *)

(** The collaborators.  A write request is answered with the generated
    document id or with a rejection; the store changes only when the
    request is fulfilled. *)
Record Env := {
  serverTimestamp : Timestamp;
  tasks_add : string → TaskDoc → Promise string;
  tasks_update : string → string → TaskUpdate → Promise unit;
  lawyers_get : string → Promise unit;
  history_add : string → HistoryDoc → Promise string;
  classifyDocument : Json → Promise (OrError ClassifyDocumentOutput);
  askDocumentQuestion : Json → Promise (OrError AskDocumentQuestionOutput);
}.

(** ** The world: the store and two logs

    [writes] lists every task document as it was persisted, in write order;
    [invoked] lists the flows that were called.  The logs are ghost state:
    no code reads them. *)
Record World := {
  db : Firestore;
  writes : list (string * string * TaskDoc);
  invoked : list (string * Json);
}.

Definition persist_task (k : string * string) (d : TaskDoc) (w : World) : World :=
  {| db := {| tasks := <[k := d]> (tasks (db w));
              history := history (db w);
              lawyers := lawyers (db w) |};
     writes := writes w ++ [(k, d)];
     invoked := invoked w |}.

Definition persist_history (k : string * string) (h : HistoryDoc) (w : World) : World :=
  {| db := {| tasks := tasks (db w);
              history := <[k := h]> (history (db w));
              lawyers := lawyers (db w) |};
     writes := writes w;
     invoked := invoked w |}.

Definition log_call (flow : string) (input : Json) (w : World) : World :=
  {| db := db w; writes := writes w; invoked := invoked w ++ [(flow, input)] |}.

(** ** Asynchronous code

    An [async] function is a function of the world. *)
Definition Async (A : Type) : Type := World → Completion A * World.

Definition ret {A} (a : A) : Async A := fun w => (Returned a, w).

Definition throw {A} (message : string) : Async A := fun w => (Thrown message, w).

Definition bind {A B} (m : Async A) (f : A → Async B) : Async B :=
  fun w =>
    match m w with
    | (Returned a, w') => f a w'
    | (Thrown e, w') => (Thrown e, w')
    | (Suspended, w') => (Suspended, w')
    end.

(** [try { body } catch (e) { handler(e.message) }] *)
Definition try_catch {A} (body : Async A) (handler : string → Async A) : Async A :=
  fun w =>
    match body w with
    | (Thrown e, w') => handler e w'
    | r => r
    end.

(** [await p] *)
Definition await {A} (p : Promise A) : Async A :=
  match p with
  | Fulfilled a => ret a
  | Rejected e => throw e
  | Forever => fun w => (Suspended, w)
  end.

#[export] Instance async_ret : MRet Async := @ret.
#[export] Instance async_bind : MBind Async := fun A B f m => bind m f.

Variable env : Env.

(** ** The store's operations *)

(** [collection.add(doc)]: a document under a generated id.  [add] creates:
    it is rejected when the id is taken. *)
Definition add_task (userId : string) (d : TaskDoc) : Async string :=
  fun w =>
    match tasks_add env userId d with
    | Fulfilled taskId =>
        match tasks (db w) !! (userId, taskId) with
        | None => (Returned taskId, persist_task (userId, taskId) d w)
        | Some _ => (Thrown "ALREADY_EXISTS", w)
        end
    | Rejected e => (Thrown e, w)
    | Forever => (Suspended, w)
    end.

(** [docRef.update(data)]: sets the given fields of an existing document,
    and is rejected when there is none. *)
Definition update_task (userId taskId : string) (u : TaskUpdate) : Async unit :=
  fun w =>
    match tasks (db w) !! (userId, taskId) with
    | None => (Thrown "NOT_FOUND", w)
    | Some d =>
        match tasks_update env userId taskId u with
        | Fulfilled _ => (Returned tt, persist_task (userId, taskId) (merge d u) w)
        | Rejected e => (Thrown e, w)
        | Forever => (Suspended, w)
        end
    end.

Definition add_history (userId : string) (h : HistoryDoc) : Async string :=
  fun w =>
    match history_add env userId h with
    | Fulfilled hid =>
        match history (db w) !! (userId, hid) with
        | None => (Returned hid, persist_history (userId, hid) h w)
        | Some _ => (Thrown "ALREADY_EXISTS", w)
        end
    | Rejected e => (Thrown e, w)
    | Forever => (Suspended, w)
    end.

(** [collection('lawyers').where('specialty', '==', category).limit(3).get()] *)
Definition query_lawyers (category : string) : Async (list Lawyer) :=
  fun w =>
    match lawyers_get env category with
    | Fulfilled _ =>
        (Returned (take 3 (filter (fun l => specialty l = category) (lawyers (db w)))), w)
    | Rejected e => (Thrown e, w)
    | Forever => (Suspended, w)
    end.

(** A call of a flow: logged, then awaited. *)
Definition call_flow {A} (flow : string) (f : Json → Promise A) (input : Json) : Async A :=
  fun w => await (f input) (log_call flow input w).

(** ** [actions.ts] *)

(** [updateTask], the helper of the file. *)
Definition updateTask (userId taskId : string) (data : TaskUpdate) : Async unit :=
  update_task userId taskId data.

Definition set_processing : TaskUpdate :=
  {| set_status := "processing"; set_result := None; set_error := None |}.

Definition set_completed (r : TaskResult) : TaskUpdate :=
  {| set_status := "completed"; set_result := Some r; set_error := None |}.

Definition set_failed (message : string) : TaskUpdate :=
  {| set_status := "failed"; set_result := None; set_error := Some message |}.

(** The cost range of lines 57-82, for a non-empty query result. *)
Definition cost_range (result : ClassifyDocumentOutput) (recommended : list Lawyer) : string :=
  if positive (estimatedHearings (expenditureAnalysis result))
     && negb (bool_decide (length recommended = 0))
  then
    let costs :=
      filter (fun c => positive c = true)
        (map (fun l => mul (costPerHearing l) (estimatedHearings (expenditureAnalysis result)))
             recommended) in
    if negb (bool_decide (length costs = 0))
    then "₹" +:+ toLocaleString (Math_min costs) +:+ " - ₹" +:+ toLocaleString (Math_max costs)
    else "N/A"
  else "N/A".

(** Lines 57-82, once the query has answered: the lawyers to recommend and
    the cost range. *)
Definition recommendation (result : ClassifyDocumentOutput) (docs : list Lawyer)
    : list Lawyer * string :=
  if negb (bool_decide (length docs = 0))
  then (docs, cost_range result docs)
  else ([], "N/A").

(** Lines 57-82. *)
Definition recommend (result : ClassifyDocumentOutput) : Async (list Lawyer * string) :=
  if negb (falsy (lawyerCategory result))
  then
    docs ← query_lawyers (lawyerCategory result) ;
    ret (recommendation result docs)
  else ret ([], "N/A").

(** The document of lines 95-101; reading a property of the payload throws
    when the payload is [undefined] or [null]. *)
Definition history_doc (finalResult : AnalysisResult) (payload : Json) : option HistoryDoc :=
  fileName ← prop payload "fileName" ;
  fileAsBase64 ← prop payload "fileAsBase64" ;
  mimeType ← prop payload "mimeType" ;
  Some {| h_result := finalResult;
          h_fileName := fileName;
          h_fileAsBase64 := fileAsBase64;
          h_mimeType := mimeType;
          h_createdAt := serverTimestamp env |}.

(** Lines 93-105: the write to the history, whose failure is swallowed. *)
Definition save_to_history (userId : string) (finalResult : AnalysisResult)
    (payload : Json) : Async unit :=
  try_catch
    (match history_doc finalResult payload with
     | Some h => (add_history userId h ;; ret tt)
     | None => throw "TypeError"
     end)
    (fun _ => ret tt).

Definition processClassifyDocumentTask (userId taskId : string) (payload : Json) : Async unit :=
  try_catch
    (updateTask userId taskId set_processing ;;
     result ← call_flow "classifyDocument" (classifyDocument env) payload ;
     match result with
     | ErrorValue e => throw e
     | Value result =>
         '(recommended, range) ← recommend result ;
         let finalResult :=
           {| classification := result;
              recommendedLawyers := recommended;
              estimatedCostRange := range |} in
         save_to_history userId finalResult payload ;;
         updateTask userId taskId (set_completed (Analysis finalResult))
     end)
    (fun message => updateTask userId taskId (set_failed message)).

Definition processAskQuestionTask (userId taskId : string) (payload : Json) : Async unit :=
  try_catch
    (updateTask userId taskId set_processing ;;
     result ← call_flow "askDocumentQuestion" (askDocumentQuestion env) payload ;
     match result with
     | ErrorValue e => throw e
     | Value result => updateTask userId taskId (set_completed (Answer result))
     end)
    (fun message => updateTask userId taskId (set_failed message)).

(** The value [createTask] resolves to: [{ taskId }] or [{ error }]. *)
Inductive Response :=
| TaskId (taskId : string)
| Error (error : string).

(** A call that is started and not awaited. *)
Inductive Job :=
| ClassifyJob (userId taskId : string) (payload : Json)
| AskJob (userId taskId : string) (payload : Json).

Definition pending_doc (taskData : TaskData) : TaskDoc :=
  {| type := td_type taskData;
     payload := td_payload taskData;
     status := "pending";
     createdAt := serverTimestamp env;
     result := None;
     error := None |}.

(** [createTask]: its response and the call it leaves running, if any.
    [taskData] is [None] for [null] and [undefined]. *)
Definition createTask (userId : string) (taskData : option TaskData)
    : Async (Response * option Job) :=
  match falsy userId, taskData with
  | false, Some taskData =>
      try_catch
        (taskId ← add_task userId (pending_doc taskData) ;
         let started :=
           if String.eqb (td_type taskData) "classifyDocument"
           then Some (ClassifyJob userId taskId (td_payload taskData))
           else if String.eqb (td_type taskData) "askQuestion"
           then Some (AskJob userId taskId (td_payload taskData))
           else None in
         ret (TaskId taskId, started))
        (fun message => ret (Error ("Failed to create the task. " +:+ message), None))
  | _, _ => ret (Error "User ID and task data are required.", None)
  end.

Definition run_job (j : Job) : Async unit :=
  match j with
  | ClassifyJob userId taskId payload => processClassifyDocumentTask userId taskId payload
  | AskJob userId taskId payload => processAskQuestionTask userId taskId payload
  end.

(** A submission seen from outside: the response of [createTask], and the
    world once the call it started has run as far as it gets.  What that
    call returns or throws is dropped: nothing awaits it. *)
Definition submit (userId : string) (taskData : option TaskData)
    : World → Completion Response * World :=
  fun w =>
    match createTask userId taskData w with
    | (Returned (response, Some j), w') => (Returned response, snd (run_job j w'))
    | (Returned (response, None), w') => (Returned response, w')
    | (Thrown e, w') => (Thrown e, w')
    | (Suspended, w') => (Suspended, w')
    end.

(** A call of [createTask] with the environment it runs in. *)
Record Call := {
  call_env : Env;
  call_userId : string;
  call_taskData : option TaskData;
}.

End Tasks.

(** Submissions served one after the other.  Calls for different tasks
    write to different documents, so serving them in turn loses nothing
    that a claim about one task depends on. *)
Definition session `{JsNumber number} {Timestamp DocumentAnalysis AskDocumentQuestionOutput : Type}
    (calls : list (@Call number Timestamp DocumentAnalysis AskDocumentQuestionOutput))
    (w : World) : World :=
  foldl (fun w c => snd (submit (call_env c) (call_userId c) (call_taskData c) w)) w calls.

(** A world in which no task was ever submitted. *)
Definition start {number Timestamp DocumentAnalysis AskDocumentQuestionOutput : Type}
    (past : gmap (string * string) HistoryDoc) (bar : list Lawyer)
    : @World number Timestamp DocumentAnalysis AskDocumentQuestionOutput :=
  {| db := {| tasks := ∅; history := past; lawyers := bar |};
     writes := [];
     invoked := [] |}.

End Actions.

(** * [src/hooks/use-task.ts] *)
Module UseTask.

Section Hook.

Context {number Timestamp DocumentAnalysis AskDocumentQuestionOutput : Type}.

Abbreviation TaskDoc :=
  (@Actions.TaskDoc number Timestamp DocumentAnalysis AskDocumentQuestionOutput).
Abbreviation World :=
  (@Actions.World number Timestamp DocumentAnalysis AskDocumentQuestionOutput).

(** The user of [useAuth]; the hook reads its [uid]. *)
Record User := {
  uid : string;
}.

(** The state of the hook: its three [useState] cells, the document the
    listener registered by [onSnapshot] is attached to, if any, and the
    calls of [onUpdate] so far (ghost state). *)
Record State := {
  task : option TaskDoc;
  isLoading : bool;
  error : option string;
  listening : option (string * string);
  updates : list TaskDoc;
}.

Definition initial : State :=
  {| task := None; isLoading := false; error := None; listening := None; updates := [] |}.

Definition setTask (t : option TaskDoc) (s : State) : State :=
  {| task := t; isLoading := isLoading s; error := error s;
     listening := listening s; updates := updates s |}.

Definition setIsLoading (b : bool) (s : State) : State :=
  {| task := task s; isLoading := b; error := error s;
     listening := listening s; updates := updates s |}.

Definition setError (e : option string) (s : State) : State :=
  {| task := task s; isLoading := isLoading s; error := e;
     listening := listening s; updates := updates s |}.

Definition onUpdate (t : TaskDoc) (s : State) : State :=
  {| task := task s; isLoading := isLoading s; error := error s;
     listening := listening s; updates := updates s ++ [t] |}.

Definition unsubscribe (s : State) : State :=
  {| task := task s; isLoading := isLoading s; error := error s;
     listening := None; updates := updates s |}.

Definition subscribe (path : string * string) (s : State) : State :=
  {| task := task s; isLoading := isLoading s; error := error s;
     listening := Some path; updates := updates s |}.

(** [taskData.status === 'completed' || taskData.status === 'failed'] *)
Definition finished (taskData : TaskDoc) : bool :=
  String.eqb (Actions.status taskData) "completed"
  || String.eqb (Actions.status taskData) "failed".

(** The first callback given to [onSnapshot].  [docSnap] is [None] when
    [docSnap.exists()] is false. *)
Definition onNext (docSnap : option TaskDoc) (s : State) : State :=
  match docSnap with
  | Some taskData =>
      let s := onUpdate taskData (setTask (Some taskData) s) in
      if finished taskData
      then unsubscribe (setIsLoading false s)
      else s
  | None => setIsLoading false (setError (Some "Task not found.") s)
  end.

(** The second callback given to [onSnapshot]. *)
Definition onError (err : string) (s : State) : State :=
  setIsLoading false (setError (Some "Failed to get task status.") s).

(** The body of the effect, run when [taskId] or [user] changes. *)
Definition effect (taskId : option string) (user : option User) (s : State) : State :=
  match taskId, user with
  | Some taskId, Some user =>
      if Actions.falsy taskId
      then setTask None (setIsLoading false s)
      else subscribe (uid user, taskId) (setError None (setIsLoading true s))
  | _, _ => setTask None (setIsLoading false s)
  end.

(** The function the effect returns. *)
Definition cleanup (s : State) : State := unsubscribe s.

(** What the listener is sent: a snapshot of the document, or an error,
    after which the listener receives nothing more. *)
Inductive Event :=
| Snapshot (docSnap : option TaskDoc)
| ListenError (message : string).

(** The dispatch of one event: to the callbacks while the listener is
    attached, to nobody afterwards. *)
Definition deliver (s : State) (ev : Event) : State :=
  match listening s with
  | None => s
  | Some _ =>
      match ev with
      | Snapshot docSnap => onNext docSnap s
      | ListenError err => unsubscribe (onError err s)
      end
  end.

Definition run (s : State) (evs : list Event) : State := foldl deliver s evs.

(** The snapshot of the document the listener is attached to, in a given
    state of the store. *)
Definition snapshot (path : string * string) (w : World) : Event :=
  Snapshot (Actions.tasks (Actions.db w) !! path).

(** The hook mounted with a task id and a user, then sent the revisions of
    the store in order. *)
Definition watch (taskId : option string) (user : option User) (ws : list World) : State :=
  let s := effect taskId user initial in
  match listening s with
  | Some path => run s (map (snapshot path) ws)
  | None => s
  end.

End Hook.

End UseTask.

(** * The vocabulary of the properties *)
Section Vocabulary.

Import Actions.

Context `{JsNumber number}.
Context {Timestamp DocumentAnalysis AskDocumentQuestionOutput : Type}.

Abbreviation TaskDoc :=
  (@Actions.TaskDoc number Timestamp DocumentAnalysis AskDocumentQuestionOutput).
Abbreviation Env :=
  (@Actions.Env number Timestamp DocumentAnalysis AskDocumentQuestionOutput).

(** The two terminal values of [status]. *)
Definition terminal (s : string) : bool :=
  String.eqb s "completed" || String.eqb s "failed".

(** A field of a document is set. *)
Definition present {A} (field : option A) : bool :=
  match field with Some _ => true | None => false end.

(** [result] and [error] agree with [status]: on a completed task only
    [result] is set, on a failed task only [error], on a pending or
    processing task neither; and [status] has one of the four values. *)
Definition fields_agree (d : TaskDoc) : bool :=
  if String.eqb (status d) "completed" then present (result d) && negb (present (error d))
  else if String.eqb (status d) "failed" then negb (present (result d)) && present (error d)
  else if String.eqb (status d) "pending" || String.eqb (status d) "processing"
  then negb (present (result d)) && negb (present (error d))
  else false.

(** The revisions of one task document, as they were persisted. *)
Definition writes_to (k : string * string) (log : list (string * string * TaskDoc))
    : list TaskDoc :=
  map snd (filter (fun e => fst e = k) log).

(** The order [pending → processing → {completed, failed}]: a sequence of
    status values follows it when it is a subsequence of one of the two
    full paths. *)
Definition follows_order (l : list string) : Prop :=
  l `sublist_of` ["pending"; "processing"; "completed"]
  ∨ l `sublist_of` ["pending"; "processing"; "failed"].

(** Nothing is written after a terminal status. *)
Definition terminal_is_last (l : list string) : Prop :=
  ∀ before s after, l = before ++ s :: after → terminal s = true → after = [].

(** What the call started by [createTask] can write to a task whose
    document is [d]: nothing, or [processing] and then one of the terminal
    states, or [failed] at once. *)
Inductive trail (d : TaskDoc) : list TaskDoc → Prop :=
| trail_none : trail d []
| trail_processing : trail d [merge d set_processing]
| trail_failed message : trail d [merge d (set_failed message)]
| trail_completed r :
    trail d [merge d set_processing; merge (merge d set_processing) (set_completed r)]
| trail_processing_failed message :
    trail d [merge d set_processing; merge (merge d set_processing) (set_failed message)].

(** The run from [w] to [w'] persisted the revisions [ds] of the task [k],
    and changed no other task and no lawyer. *)
Definition touches (k : string * string) (ds : list TaskDoc)
    (w w' : @World number Timestamp DocumentAnalysis AskDocumentQuestionOutput) : Prop :=
  writes w' = writes w ++ map (pair k) ds
  ∧ tasks (db w') = foldl (fun m d => <[k := d]> m) (tasks (db w)) ds
  ∧ lawyers (db w') = lawyers (db w).

(** The store and the log tell the same story: a task that is not in the
    store was never written; a task that is there was created [pending]
    with neither [result] nor [error], the call started for it wrote the
    rest, and the store holds the last revision. *)
Definition consistent
    (w : @World number Timestamp DocumentAnalysis AskDocumentQuestionOutput) : Prop :=
  ∀ k,
    match tasks (db w) !! k with
    | None => writes_to k (writes w) = []
    | Some d =>
        ∃ d0 ds,
          status d0 = "pending" ∧ result d0 = None ∧ error d0 = None
          ∧ trail d0 ds
          ∧ writes_to k (writes w) = d0 :: ds
          ∧ last (d0 :: ds) = Some d
    end.

(** The failure a flow reports: the message of its rejection, or of the
    [{ error }] value it resolves to. *)
Definition failure {A} (p : Promise (OrError A)) : option string :=
  match p with
  | Rejected message => Some message
  | Fulfilled (ErrorValue message) => Some message
  | _ => None
  end.

(** The value [finalResult] takes for the flow's result [r] when the
    lawyers in the store are [bar] and the query for them is answered. *)
Definition full_result (r : ClassifyDocumentOutput) (bar : list (@Lawyer number))
    : @AnalysisResult number DocumentAnalysis :=
  let found :=
    if falsy (lawyerCategory r)
    then ([], "N/A")
    else recommendation r (take 3 (filter (fun l => specialty l = lawyerCategory r) bar)) in
  {| classification := r;
     recommendedLawyers := fst found;
     estimatedCostRange := snd found |}.

(** The final state of a task: completed with the result [r], or failed
    with the message [m]. *)
Definition ends_completed (final : option TaskDoc) (r : TaskResult) : Prop :=
  ∃ d, final = Some d ∧ status d = "completed" ∧ result d = Some r ∧ error d = None.

Definition ends_failed (final : option TaskDoc) (m : string) : Prop :=
  ∃ d, final = Some d ∧ status d = "failed" ∧ error d = Some m ∧ result d = None.

(** Two worlds with the same tasks, the same log of task writes and the
    same lawyers; they may differ in the history. *)
Definition agree (w w' : @World number Timestamp DocumentAnalysis AskDocumentQuestionOutput)
    : Prop :=
  tasks (db w) = tasks (db w') ∧ writes w = writes w' ∧ lawyers (db w) = lawyers (db w').

(** Two computations that cannot be told apart by the tasks: from worlds
    that agree they end in the same way, in worlds that agree. *)
Definition similar {A} (m m' : @Async number Timestamp DocumentAnalysis AskDocumentQuestionOutput A)
    : Prop :=
  ∀ w w', agree w w' → fst (m w) = fst (m' w') ∧ agree (snd (m w)) (snd (m' w')).

(** A computation that leaves the history as it is. *)
Definition keeps_history {A}
    (m : @Async number Timestamp DocumentAnalysis AskDocumentQuestionOutput A) : Prop :=
  ∀ w, history (db (snd (m w))) = history (db w).

(** An environment with another answer to the writes to the history. *)
Definition with_history_add (f : string → HistoryDoc → Promise string) (env : Env) : Env :=
  {| serverTimestamp := serverTimestamp env;
     tasks_add := tasks_add env;
     tasks_update := tasks_update env;
     lawyers_get := lawyers_get env;
     history_add := f;
     classifyDocument := classifyDocument env;
     askDocumentQuestion := askDocumentQuestion env |}.

End Vocabulary.

(** * A concrete instance

    Numbers as integers, and small environments to run the model on. *)
Module Example.

Import Actions.

#[local] Open Scope Z_scope.

#[export] Instance integers : JsNumber Z := {|
  mul := Z.mul;
  positive := fun n => 0 <? n;
  Math_min := fun costs => foldr Z.min (default 0 (head costs)) costs;
  Math_max := fun costs => foldr Z.max (default 0 (head costs)) costs;
  toLocaleString := fun n => pretty n;
|}.

Abbreviation Env := (@Actions.Env Z Z string string).
Abbreviation World := (@Actions.World Z Z string string).
Abbreviation TaskData := (@Actions.TaskData Z).

(** A store and flows that always answer. *)
Definition reliable : Env :=
  {| serverTimestamp := 1700000000;
     tasks_add := fun _ _ => Fulfilled "t1";
     tasks_update := fun _ _ _ => Fulfilled tt;
     lawyers_get := fun _ => Fulfilled tt;
     history_add := fun _ _ => Fulfilled "h1";
     classifyDocument := fun _ =>
       Fulfilled (Value {| analysis := "overview";
                           expenditureAnalysis :=
                             {| proceedingType := "Arbitration";
                                estimatedHearings := 3;
                                costFactors := ["Lawyer fees"];
                                disclaimer := "A rough estimate." |};
                           lawyerCategory := "Tenant Law" |});
     askDocumentQuestion := fun _ => Fulfilled (Value "The deposit is returned.") |}.

(** The store rejects the first write of a task. *)
Definition add_rejected : Env :=
  {| serverTimestamp := serverTimestamp reliable;
     tasks_add := fun _ _ => Rejected "UNAVAILABLE";
     tasks_update := tasks_update reliable;
     lawyers_get := lawyers_get reliable;
     history_add := history_add reliable;
     classifyDocument := classifyDocument reliable;
     askDocumentQuestion := askDocumentQuestion reliable |}.

(** The store rejects the write of [completed] and accepts the others. *)
Definition completed_rejected : Env :=
  {| serverTimestamp := serverTimestamp reliable;
     tasks_add := tasks_add reliable;
     tasks_update := fun _ _ u =>
       if String.eqb (set_status u) "completed" then Rejected "UNAVAILABLE" else Fulfilled tt;
     lawyers_get := lawyers_get reliable;
     history_add := history_add reliable;
     classifyDocument := classifyDocument reliable;
     askDocumentQuestion := askDocumentQuestion reliable |}.

(** The question flow throws. *)
Definition disk_full : Env :=
  {| serverTimestamp := serverTimestamp reliable;
     tasks_add := tasks_add reliable;
     tasks_update := tasks_update reliable;
     lawyers_get := lawyers_get reliable;
     history_add := history_add reliable;
     classifyDocument := classifyDocument reliable;
     askDocumentQuestion := fun _ => Rejected "disk full" |}.

(** The store rejects the writes to the history. *)
Definition history_rejected : string → @HistoryDoc Z Z string → Promise string :=
  fun _ _ => Rejected "PERMISSION_DENIED".

Definition bar : list (@Lawyer Z) :=
  [ {| id := "l1"; name := "A. Rao"; specialty := "Tenant Law"; location := "Pune";
       contact := "rao@example.org"; costPerHearing := 2000 |};
    {| id := "l2"; name := "B. Shah"; specialty := "Family Law"; location := "Surat";
       contact := "shah@example.org"; costPerHearing := 900 |};
    {| id := "l3"; name := "C. Iyer"; specialty := "Tenant Law"; location := "Kochi";
       contact := "iyer@example.org"; costPerHearing := 500 |} ].

Definition empty_world : World := start ∅ bar.

Definition upload : @Json Z :=
  JObj [("fileName", JStr "lease.pdf"); ("fileAsBase64", JStr "JVBERi0="); ("mimeType", JStr "application/pdf")].

Definition question : @Json Z :=
  JObj [("fileAsBase64", JStr "JVBERi0="); ("mimeType", JStr "application/pdf");
        ("question", JStr "What happens if I miss a payment?")].

Definition classify_data : TaskData := {| td_type := "classifyDocument"; td_payload := upload |}.
Definition ask_data : TaskData := {| td_type := "askQuestion"; td_payload := question |}.
Definition echo_data : TaskData := {| td_type := "echo"; td_payload := JStr "x" |}.
Definition untyped_data : TaskData := {| td_type := ""; td_payload := JStr "x" |}.

(** The world once the record of a classification task has been created. *)
Definition created : World :=
  persist_task ("u1", "t1") (pending_doc reliable classify_data) empty_world.

(** A task document in a terminal state. *)
Definition answered : @TaskDoc Z Z string string :=
  merge (merge (pending_doc reliable ask_data) set_processing)
        (set_completed (Answer "The deposit is returned.")).

(** The hook of a signed-in user, mounted on the task "t1". *)
Definition alice : UseTask.User := {| UseTask.uid := "u1" |}.

Definition mounted : @UseTask.State Z Z string string :=
  UseTask.effect (Some "t1") (Some alice) UseTask.initial.

End Example.

(** * [src/ai/flows]: the exported wrappers and the role-play flow

    Every flow file exports an [async] function that awaits the flow
    defined with [ai.defineFlow] and turns an exception into an
    [{ error }] value.  The flow itself, and the model behind it, are
    collaborators. *)
Module Flows.

Section Wrappers.

Context {Input Output : Type}.

(** [try { return await flow(input); } catch (e) { return { error: prefix + e.message }; }] *)
Definition caught (prefix : string) (flow : Input → Promise Output) (input : Input)
    : Promise (OrError Output) :=
  match flow input with
  | Fulfilled output => Fulfilled (Value output)
  | Rejected message => Fulfilled (ErrorValue (prefix +:+ message))
  | Forever => Forever
  end.

(** [classify-uploaded-document.ts], lines 95-102. *)
Definition classifyDocument := caught "Failed to get a response from the AI. ".

(** [ask-document-question.ts], lines 130-137 of the flows file. *)
Definition askDocumentQuestion := caught "Failed to get an answer from the AI. ".

(** [start-role-play.ts], lines 26-33. *)
Definition startRolePlay := caught "Failed to start role play. ".

(** [continue-role-play.ts], lines 32-40. *)
Definition continueRolePlay := caught "Failed to continue role play. ".

End Wrappers.

(** ** [continue-role-play.ts] *)

(** [z.enum(['user', 'assistant', 'system'])] *)
Inductive ChatRole := user | assistant | system.

Record ChatMessage := {
  role : ChatRole;
  content : string;
}.

(** The roles of Genkit's [Message]. *)
Inductive GenkitRole := g_user | g_system | g_model.

Record Part := {
  text : string;
}.

Record Message := {
  m_role : GenkitRole;
  m_content : list Part;
}.

Definition toGenkitMessages (messages : list ChatMessage) : list Message :=
  map (fun msg =>
         {| m_role := match role msg with
                      | user => g_user
                      | system => g_system
                      | assistant => g_model
                      end;
            m_content := [ {| text := content msg |} ] |})
      messages.

(** The argument of [ai.generate]: the system prompt, the history and the
    prompt ([None] when [lastMessage.content[0]] is [undefined]). *)
Record GenerateRequest := {
  req_system : string;
  req_history : list Message;
  req_prompt : option Part;
}.

(** [xs.slice(1, -1)] *)
Definition slice_1_m1 {A} (xs : list A) : list A := take (length xs - 2) (drop 1 xs).

(** Lines 59-67: the request the flow sends, or the message of the
    exception it throws before sending any. *)
Definition request (messages : list ChatMessage) : string + GenerateRequest :=
  let genkitMessages := toGenkitMessages messages in
  match genkitMessages with
  | [] => inl "Conversation must start with a system message."
  | first :: _ =>
      match m_role first with
      | g_system =>
          match m_content first, last genkitMessages with
          | part :: _, Some lastMessage =>
              inr {| req_system := text part;
                     req_history := slice_1_m1 genkitMessages;
                     req_prompt := head (m_content lastMessage) |}
          | _, _ => inl "TypeError"
          end
      | _ => inl "Conversation must start with a system message."
      end
  end.

(** [continueRolePlayFlow]: the promise it returns and the requests it
    made to the model.  [generate] answers with the text of the output,
    [None] when there is no output or no text. *)
Definition continueRolePlayFlow (generate : GenerateRequest → Promise (option string))
    (messages : list ChatMessage) : Promise string * list GenerateRequest :=
  match request messages with
  | inl message => (Rejected message, [])
  | inr req =>
      (match generate req with
       | Fulfilled (Some output) =>
           if Actions.falsy output
           then Rejected "The AI failed to generate a response. This may be due to the content filter."
           else Fulfilled output
       | Fulfilled None =>
           Rejected "The AI failed to generate a response. This may be due to the content filter."
       | Rejected message => Rejected message
       | Forever => Forever
       end, [req])
  end.

End Flows.

(** * [src/app/actions.ts]: the role-play actions *)
Module RolePlay.

Section Sessions.

Context {Timestamp : Type}.

(** [StartRolePlayInput & { userId: string }] *)
Record Input := {
  role : string;
  scenario : string;
  userId : string;
}.

Record StartRolePlayOutput := {
  initialResponse : string;
  conversationSummary : string;
}.

(** [users/{userId}/rolePlaySessions/{id}]:
    [{ ...input, ...result, createdAt }] *)
Record Session := {
  s_role : string;
  s_scenario : string;
  s_userId : string;
  s_initialResponse : string;
  s_conversationSummary : string;
  s_createdAt : Timestamp;
}.

(** The collaborators of the two actions. *)
Record Env := {
  serverTimestamp : Timestamp;
  startRolePlay : Input → Promise (OrError StartRolePlayOutput);
  sessions_add : string → Session → Promise string;
  sessions_delete : string → string → Promise unit;
}.

(** The value [startNewRolePlay] resolves to. *)
Inductive Started :=
| Session_started (result : StartRolePlayOutput) (sessionId : string)
| Start_error (error : string).

(** The value [deleteRolePlaySession] resolves to. *)
Inductive Deleted :=
| Success
| Delete_error (error : string).

Abbreviation Store := (gmap (string * string) Session).

Variable env : Env.

(** The outcome of an action: the promise it returns, the store it
    leaves, and whether the flow was called. *)
Definition startNewRolePlay (input : Input) (sessions : Store)
    : Promise Started * Store * bool :=
  if Actions.falsy (scenario input) || Actions.falsy (role input) || Actions.falsy (userId input)
  then (Fulfilled (Start_error "Role, scenario, and user ID are required."), sessions, false)
  else
    match startRolePlay env input with
    | Fulfilled (ErrorValue e) => (Fulfilled (Start_error e), sessions, true)
    | Fulfilled (Value result) =>
        let session :=
          {| s_role := role input;
             s_scenario := scenario input;
             s_userId := userId input;
             s_initialResponse := initialResponse result;
             s_conversationSummary := conversationSummary result;
             s_createdAt := serverTimestamp env |} in
        match sessions_add env (userId input) session with
        | Fulfilled sessionId =>
            match sessions !! (userId input, sessionId) with
            | None =>
                (Fulfilled (Session_started result sessionId),
                 <[(userId input, sessionId) := session]> sessions, true)
            | Some _ =>
                (Fulfilled (Start_error ("Failed to start role-play session. " +:+ "ALREADY_EXISTS")),
                 sessions, true)
            end
        | Rejected e =>
            (Fulfilled (Start_error ("Failed to start role-play session. " +:+ e)), sessions, true)
        | Forever => (Forever, sessions, true)
        end
    | Rejected e =>
        (Fulfilled (Start_error ("Failed to start role-play session. " +:+ e)), sessions, true)
    | Forever => (Forever, sessions, true)
    end.

(** [docRef.delete()] succeeds whether or not the document exists. *)
Definition deleteRolePlaySession (userId sessionId : string) (sessions : Store)
    : Promise Deleted * Store :=
  if Actions.falsy userId || Actions.falsy sessionId
  then (Fulfilled (Delete_error "User ID and Session ID are required."), sessions)
  else
    match sessions_delete env userId sessionId with
    | Fulfilled _ => (Fulfilled Success, delete (userId, sessionId) sessions)
    | Rejected e => (Fulfilled (Delete_error ("Failed to delete session. " +:+ e)), sessions)
    | Forever => (Forever, sessions)
    end.

End Sessions.

(** [continueExistingRolePlay]: [messages] is [None] when the field is
    missing.  [continueRolePlay] is the function the action awaits; the
    result carries the requests made to the model. *)
Definition continueExistingRolePlay
    (continueRolePlay : list Flows.ChatMessage → Promise (OrError string) * list Flows.GenerateRequest)
    (messages : option (list Flows.ChatMessage))
    : Promise (OrError string) * list Flows.GenerateRequest :=
  match messages with
  | None | Some [] => (Fulfilled (ErrorValue "Conversation history is required."), [])
  | Some messages =>
      match continueRolePlay messages with
      | (Rejected e, calls) => (Fulfilled (ErrorValue ("Failed to get a response. " +:+ e)), calls)
      | r => r
      end
  end.

(** The action over the real flow: [continueRolePlay] of
    [continue-role-play.ts] around [continueRolePlayFlow]. *)
Definition continue_with (generate : Flows.GenerateRequest → Promise (option string))
    (messages : option (list Flows.ChatMessage))
    : Promise (OrError string) * list Flows.GenerateRequest :=
  continueExistingRolePlay
    (fun messages =>
       (Flows.continueRolePlay (fun messages => fst (Flows.continueRolePlayFlow generate messages))
          messages,
        snd (Flows.continueRolePlayFlow generate messages)))
    messages.

(** [handleSendMessage] of the simulator page, lines 332-336: the history
    it sends. *)
Definition fullChatHistory (systemPrompt : string) (messages : list Flows.ChatMessage)
    (userMessage : Flows.ChatMessage) : list Flows.ChatMessage :=
  {| Flows.role := Flows.system; Flows.content := systemPrompt |} :: messages ++ [userMessage].

End RolePlay.

(** * [src/components/document-verifier-page.tsx]: the caller of the task *)
Module VerifierPage.

Section Page.

Context {number Timestamp DocumentAnalysis AskDocumentQuestionOutput : Type}.

Abbreviation TaskDoc :=
  (@Actions.TaskDoc number Timestamp DocumentAnalysis AskDocumentQuestionOutput).
Abbreviation TaskResult :=
  (@Actions.TaskResult number DocumentAnalysis AskDocumentQuestionOutput).

(** [{ fileName, fileAsBase64, mimeType }] *)
Record UploadedFile := {
  fileName : string;
  fileAsBase64 : string;
  mimeType : string;
}.

(** The argument of [toast]; [description] is [task.error] or
    [response.error]. *)
Record Toast := {
  variant : string;
  title : string;
  description : option string;
}.

(** The state of the page that the task touches: [result] holds
    [{ ...taskResult, ...uploadedFile }]; [toasts] lists the calls of
    [toast]. *)
Record State := {
  result : option (option TaskResult * option UploadedFile);
  uploadedFile : option UploadedFile;
  currentTaskId : option string;
  toasts : list Toast;
}.

(** [onTaskUpdate], the callback the page gives to [useTask].  [captured]
    is the [uploadedFile] of the render that created the callback. *)
Definition onTaskUpdate (captured : option UploadedFile) (task : TaskDoc) (p : State) : State :=
  if String.eqb (Actions.status task) "completed"
  then {| result := Some (Actions.result task, captured);
          uploadedFile := uploadedFile p;
          currentTaskId := None;
          toasts := toasts p |}
  else if String.eqb (Actions.status task) "failed"
  then {| result := result p;
          uploadedFile := None;
          currentTaskId := None;
          toasts := toasts p ++ [ {| variant := "destructive";
                                     title := "Analysis Failed";
                                     description := Actions.error task |} ] |}
  else p.

(** Lines 88-95 of [processFile]: what the page does with the response of
    [createTask]. *)
Definition onResponse (response : Actions.Response) (p : State) : State :=
  match response with
  | Actions.Error error =>
      {| result := result p;
         uploadedFile := None;
         currentTaskId := currentTaskId p;
         toasts := toasts p ++ [ {| variant := "destructive";
                                    title := "Error";
                                    description := Some error |} ] |}
  | Actions.TaskId taskId =>
      {| result := result p;
         uploadedFile := uploadedFile p;
         currentTaskId := Some taskId;
         toasts := toasts p |}
  end.

(** The page after the calls of [onUpdate] that the hook made. *)
Definition after (captured : option UploadedFile) (updates : list TaskDoc) (p : State) : State :=
  foldl (fun p task => onTaskUpdate captured task p) p updates.

End Page.

End VerifierPage.

(** * More vocabulary *)
Section Delivery.

Context {number Timestamp DocumentAnalysis AskDocumentQuestionOutput : Type}.

Abbreviation TaskDoc :=
  (@Actions.TaskDoc number Timestamp DocumentAnalysis AskDocumentQuestionOutput).
Abbreviation Async :=
  (@Actions.Async number Timestamp DocumentAnalysis AskDocumentQuestionOutput).

(** The revisions up to and including the first one that is terminal. *)
Fixpoint upto_terminal (docs : list TaskDoc) : list TaskDoc :=
  match docs with
  | [] => []
  | d :: rest => if UseTask.finished d then [d] else d :: upto_terminal rest
  end.

(** The snapshots of a document that exists, one for each revision. *)
Definition revisions (docs : list TaskDoc)
    : list (@UseTask.Event number Timestamp DocumentAnalysis AskDocumentQuestionOutput) :=
  map (fun d => UseTask.Snapshot (Some d)) docs.

(** A computation that calls no flow. *)
Definition quiet {A} (m : Async A) : Prop :=
  ∀ w, Actions.invoked (snd (m w)) = Actions.invoked w.

(** A computation that calls the flow [flow] on [input] once, or calls no
    flow. *)
Definition calls_once {A} (flow : string) (input : @Actions.Json number) (m : Async A) : Prop :=
  ∀ w, Actions.invoked (snd (m w)) = Actions.invoked w
       ∨ Actions.invoked (snd (m w)) = Actions.invoked w ++ [(flow, input)].

End Delivery.


(** * [src/hooks/use-auth.tsx]: the user of the hook *)
Module Auth.

Section Users.

Context {Date : Type}.

(** The fields of Firebase's [User] that the file reads. *)
Record User := {
  uid : string;
  email : option string;
  displayName : option string;
  photoURL : option string;
}.

(** [users/{uid}]: the fields written here and by the actions.  A field is
    [None] when it is absent or [null]. *)
Record UserDoc := {
  d_email : option string;
  d_displayName : option string;
  d_photoURL : option string;
  d_role : option string;
  d_createdAt : option Date;
  d_about : option string;
  d_updatedAt : option Date;
}.

(** The collaborators: the store's answers to [getDoc] and [setDoc], and
    [new Date()]. *)
Record Env := {
  getDoc : string → Promise unit;
  setDoc : string → Promise unit;
  now : Date;
}.

Abbreviation Users := (gmap string UserDoc).

Variable env : Env.

(** [updateUserInFirestore]: the promise it returns and the store it
    leaves.  Both branches write with [{ merge: true }]. *)
Definition updateUserInFirestore (user : User) (users : Users) : Promise unit * Users :=
  match getDoc env (uid user) with
  | Fulfilled _ =>
      match users !! uid user with
      | None =>
          match setDoc env (uid user) with
          | Fulfilled _ =>
              (Fulfilled tt,
               <[uid user := {| d_email := email user;
                                d_displayName := displayName user;
                                d_photoURL := photoURL user;
                                d_role := Some "user";
                                d_createdAt := Some (now env);
                                d_about := None;
                                d_updatedAt := None |}]> users)
          | Rejected e => (Rejected e, users)
          | Forever => (Forever, users)
          end
      | Some d =>
          match setDoc env (uid user) with
          | Fulfilled _ =>
              (Fulfilled tt,
               <[uid user := {| d_email := email user;
                                d_displayName := displayName user;
                                d_photoURL := photoURL user;
                                d_role := d_role d;
                                d_createdAt := d_createdAt d;
                                d_about := d_about d;
                                d_updatedAt := d_updatedAt d |}]> users)
          | Rejected e => (Rejected e, users)
          | Forever => (Forever, users)
          end
      end
  | Rejected e => (Rejected e, users)
  | Forever => (Forever, users)
  end.

(** The two [useState] cells of [AuthProvider]. *)
Record State := {
  user : option User;
  loading : bool;
}.

(** The callback given to [onAuthStateChanged]: the state and the store it
    leaves.  The callback has no [catch]: when the update does not
    succeed, the two setters after the [await] are never reached. *)
Definition onAuthStateChanged (signed : option User) (s : State) (users : Users)
    : State * Users :=
  match signed with
  | Some u =>
      match updateUserInFirestore u users with
      | (Fulfilled _, users') => ({| user := Some u; loading := false |}, users')
      | (_, users') => (s, users')
      end
  | None => ({| user := None; loading := false |}, users)
  end.

End Users.

(** [const { user } = useAuth()] in [useTask]: the user the hook sees. *)
Definition hook_user (s : State) : option UseTask.User :=
  (fun u => {| UseTask.uid := uid u |}) <$> user s.

End Auth.

(** * [src/app/actions.ts]: the case log *)
Module CaseLog.

Section Entries.

Context {Timestamp : Type}.

(** [users/{userId}/caseLogs/{caseId}] *)
Record CaseDoc := {
  caseName : string;
  clientName : string;
  caseNumber : option string;
  createdAt : Timestamp;
  updatedAt : Timestamp;
}.

(** [users/{userId}/caseLogs/{caseId}/entries/{id}] *)
Record EntryDoc := {
  entry : string;
  e_createdAt : Timestamp;
}.

Record Store := {
  cases : gmap (string * string) CaseDoc;
  entries : gmap (string * string * string) EntryDoc;
}.

Record Env := {
  serverTimestamp : Timestamp;
  entries_add : string → string → EntryDoc → Promise string;
  cases_update : string → string → Promise unit;
}.

(** The value [addCaseLogEntry] resolves to. *)
Inductive Added :=
| Success
| Error (error : string).

Variable env : Env.

(** [addCaseLogEntry]: two writes, one after the other.  A document may be
    added under a case that does not exist; [update] is rejected when the
    case does not exist. *)
Definition addCaseLogEntry (userId caseId text : string) (store : Store)
    : Promise Added * Store :=
  if Actions.falsy userId || Actions.falsy caseId || Actions.falsy text
  then (Fulfilled (Error "User ID, Case ID, and entry text are required."), store)
  else
    let e := {| entry := text; e_createdAt := serverTimestamp env |} in
    match entries_add env userId caseId e with
    | Fulfilled entryId =>
        match entries store !! (userId, caseId, entryId) with
        | Some _ => (Fulfilled (Error "ALREADY_EXISTS"), store)
        | None =>
            let store1 :=
              {| cases := cases store;
                 entries := <[(userId, caseId, entryId) := e]> (entries store) |} in
            match cases store1 !! (userId, caseId) with
            | None => (Fulfilled (Error "NOT_FOUND"), store1)
            | Some c =>
                match cases_update env userId caseId with
                | Fulfilled _ =>
                    (Fulfilled Success,
                     {| cases :=
                          <[(userId, caseId) :=
                              {| caseName := caseName c;
                                 clientName := clientName c;
                                 caseNumber := caseNumber c;
                                 createdAt := createdAt c;
                                 updatedAt := serverTimestamp env |}]> (cases store1);
                        entries := entries store1 |})
                | Rejected m => (Fulfilled (Error m), store1)
                | Forever => (Forever, store1)
                end
            end
        end
    | Rejected m => (Fulfilled (Error m), store)
    | Forever => (Forever, store)
    end.

End Entries.

End CaseLog.

(** * More concrete inputs *)
Module Sample.

Import Actions Example.

#[local] Open Scope Z_scope.

(** The store rejects the write of [processing]. *)
Definition processing_rejected : Env :=
  {| serverTimestamp := serverTimestamp reliable;
     tasks_add := tasks_add reliable;
     tasks_update := fun _ _ u =>
       if String.eqb (set_status u) "processing" then Rejected "UNAVAILABLE" else Fulfilled tt;
     lawyers_get := lawyers_get reliable;
     history_add := history_add reliable;
     classifyDocument := classifyDocument reliable;
     askDocumentQuestion := askDocumentQuestion reliable |}.

(** The store rejects the write of [failed]; the question flow throws. *)
Definition failed_rejected : Env :=
  {| serverTimestamp := serverTimestamp reliable;
     tasks_add := tasks_add reliable;
     tasks_update := fun _ _ u =>
       if String.eqb (set_status u) "failed" then Rejected "UNAVAILABLE" else Fulfilled tt;
     lawyers_get := lawyers_get reliable;
     history_add := history_add reliable;
     classifyDocument := classifyDocument reliable;
     askDocumentQuestion := fun _ => Rejected "disk full" |}.

(** The question flow never answers. *)
Definition hanging : Env :=
  {| serverTimestamp := serverTimestamp reliable;
     tasks_add := tasks_add reliable;
     tasks_update := tasks_update reliable;
     lawyers_get := lawyers_get reliable;
     history_add := history_add reliable;
     classifyDocument := classifyDocument reliable;
     askDocumentQuestion := fun _ => Forever |}.

(** The query for the lawyers is rejected. *)
Definition lawyers_rejected : Env :=
  {| serverTimestamp := serverTimestamp reliable;
     tasks_add := tasks_add reliable;
     tasks_update := tasks_update reliable;
     lawyers_get := fun _ => Rejected "DEADLINE_EXCEEDED";
     history_add := history_add reliable;
     classifyDocument := classifyDocument reliable;
     askDocumentQuestion := askDocumentQuestion reliable |}.

(** The flows behind their wrappers; the flows themselves throw. *)
Definition wrapped : Env :=
  {| serverTimestamp := serverTimestamp reliable;
     tasks_add := tasks_add reliable;
     tasks_update := tasks_update reliable;
     lawyers_get := lawyers_get reliable;
     history_add := history_add reliable;
     classifyDocument := Flows.classifyDocument (fun _ => Rejected "disk full");
     askDocumentQuestion := Flows.askDocumentQuestion (fun _ => Rejected "disk full") |}.

Definition the_analysis : @ClassifyDocumentOutput Z string :=
  {| analysis := "overview";
     expenditureAnalysis :=
       {| proceedingType := "Arbitration";
          estimatedHearings := 3;
          costFactors := ["Lawyer fees"];
          disclaimer := "A rough estimate." |};
     lawyerCategory := "Tenant Law" |}.


(** Two submissions of the user "u1". *)
Definition two_calls : list (@Call Z Z string string) :=
  [ {| call_env := reliable; call_userId := "u1"; call_taskData := Some ask_data |};
    {| call_env :=
         {| serverTimestamp := serverTimestamp reliable;
            tasks_add := fun _ _ => Fulfilled "t2";
            tasks_update := tasks_update reliable;
            lawyers_get := lawyers_get reliable;
            history_add := history_add reliable;
            classifyDocument := classifyDocument reliable;
            askDocumentQuestion := fun _ => Rejected "disk full" |};
       call_userId := "u1";
       call_taskData := Some ask_data |} ].

(** The revisions of a task that fails. *)
Definition failing : list (@TaskDoc Z Z string string) :=
  [ pending_doc reliable ask_data;
    merge (pending_doc reliable ask_data) set_processing;
    merge (merge (pending_doc reliable ask_data) set_processing) (set_failed "disk full") ].

Definition lease : VerifierPage.UploadedFile :=
  {| VerifierPage.fileName := "lease.pdf";
     VerifierPage.fileAsBase64 := "JVBERi0=";
     VerifierPage.mimeType := "application/pdf" |}.

Definition waiting : @VerifierPage.State Z string string :=
  {| VerifierPage.result := None;
     VerifierPage.uploadedFile := Some lease;
     VerifierPage.currentTaskId := Some "t1";
     VerifierPage.toasts := [] |}.

(** A role-play environment that answers. *)
Definition stage : @RolePlay.Env Z :=
  {| RolePlay.serverTimestamp := 1700000000;
     RolePlay.startRolePlay := fun _ =>
       Fulfilled (Value {| RolePlay.initialResponse := "Please be seated.";
                           RolePlay.conversationSummary := "A tenant disputes a deposit." |});
     RolePlay.sessions_add := fun _ _ => Fulfilled "s1";
     RolePlay.sessions_delete := fun _ _ => Fulfilled tt |}.

Definition tenant : RolePlay.Input :=
  {| RolePlay.role := "Client"; RolePlay.scenario := "Deposit dispute"; RolePlay.userId := "u1" |}.

Definition so_far : list Flows.ChatMessage :=
  [ {| Flows.role := Flows.assistant; Flows.content := "Please be seated." |} ].

Definition reply : Flows.ChatMessage :=
  {| Flows.role := Flows.user; Flows.content := "I want my deposit back." |}.

(** A sign-in while the store cannot be reached. *)
Definition offline : @Auth.Env Z :=
  {| Auth.getDoc := fun _ => Rejected "unavailable";
     Auth.setDoc := fun _ => Fulfilled tt;
     Auth.now := 1700000000 |}.

Definition visitor : Auth.User :=
  {| Auth.uid := "u1"; Auth.email := Some "rao@example.org";
     Auth.displayName := Some "A. Rao"; Auth.photoURL := None |}.

Definition signed_out : Auth.State := {| Auth.user := None; Auth.loading := true |}.

(** A case log without cases, and a store that accepts every write. *)
Definition clerk : @CaseLog.Env Z :=
  {| CaseLog.serverTimestamp := 1700000000;
     CaseLog.entries_add := fun _ _ _ => Fulfilled "e1";
     CaseLog.cases_update := fun _ _ => Fulfilled tt |}.

Definition no_cases : @CaseLog.Store Z := {| CaseLog.cases := ∅; CaseLog.entries := ∅ |}.

(** A model that repeats the prompt it is given. *)
Definition parrot (req : Flows.GenerateRequest) : Promise (option string) :=
  Fulfilled (Flows.text <$> Flows.req_prompt req).

End Sample.

(** * Properties *)
Section Properties.

Import Actions.

Context `{JsNumber number}.
Context {Timestamp DocumentAnalysis AskDocumentQuestionOutput : Type}.

Abbreviation TaskDoc :=
  (@Actions.TaskDoc number Timestamp DocumentAnalysis AskDocumentQuestionOutput).
Abbreviation Env :=
  (@Actions.Env number Timestamp DocumentAnalysis AskDocumentQuestionOutput).
Abbreviation World :=
  (@Actions.World number Timestamp DocumentAnalysis AskDocumentQuestionOutput).
Abbreviation TaskData := (@Actions.TaskData number).
Abbreviation Call :=
  (@Actions.Call number Timestamp DocumentAnalysis AskDocumentQuestionOutput).
Abbreviation HistoryDoc := (@Actions.HistoryDoc number Timestamp DocumentAnalysis).
Abbreviation Lawyer := (@Actions.Lawyer number).
Abbreviation Async :=
  (@Actions.Async number Timestamp DocumentAnalysis AskDocumentQuestionOutput).
Abbreviation Json := (@Actions.Json number).
Abbreviation AnalysisResult := (@Actions.AnalysisResult number DocumentAnalysis).

Implicit Types (env : Env) (w : World) (d : TaskDoc) (ds : list TaskDoc) (k : string * string).

(** ** The log of one task *)

Lemma writes_to_app k (l1 l2 : list (string * string * TaskDoc)) :
  writes_to k (l1 ++ l2) = writes_to k l1 ++ writes_to k l2.
Proof. unfold writes_to. by rewrite filter_app, map_app. Qed.

Lemma writes_to_same k (ds : list TaskDoc) :
  writes_to k (map (pair k) ds) = ds.
Proof.
  unfold writes_to. induction ds as [|d ds IH]; [done|].
  simpl. rewrite filter_cons_True by done. simpl. by rewrite IH.
Qed.

Lemma writes_to_other k k' (ds : list TaskDoc) :
  k' ≠ k → writes_to k (map (pair k') ds) = [].
Proof.
  intros Hne. unfold writes_to. induction ds as [|d ds IH]; [done|].
  simpl. by rewrite filter_cons_False.
Qed.

(** ** Symbolic execution of the asynchronous code *)

Ltac unfold_async :=
  unfold processAskQuestionTask, processClassifyDocumentTask, save_to_history,
    recommend, updateTask, update_task, add_task, add_history, query_lawyers,
    call_flow, try_catch, await, throw, mbind, async_bind, mret, async_ret, bind, ret in *.

Ltac exec :=
  repeat (simpl in *; rewrite ?lookup_insert_eq in *; try case_match; simplify_eq).

Ltac close_touches :=
  unfold touches; simpl; rewrite <- ?app_assoc, ?app_nil_r; simpl; done.

Lemma processAskQuestionTask_trail env userId taskId input w d :
  tasks (db w) !! (userId, taskId) = Some d →
  ∃ ds, trail d ds
        ∧ touches (userId, taskId) ds w (snd (processAskQuestionTask env userId taskId input w)).
Proof.
  intros Hd. unfold_async. rewrite Hd. exec.
  all: first
    [ exists []; split; [constructor | close_touches]
    | eexists [_]; split; [constructor | close_touches]
    | eexists [_; _]; split; [constructor | close_touches] ].
Qed.

Lemma processClassifyDocumentTask_trail env userId taskId input w d :
  tasks (db w) !! (userId, taskId) = Some d →
  ∃ ds, trail d ds
        ∧ touches (userId, taskId) ds w
            (snd (processClassifyDocumentTask env userId taskId input w)).
Proof.
  intros Hd. unfold_async. rewrite Hd. exec.
  all: first
    [ exists []; split; [constructor | close_touches]
    | eexists [_]; split; [constructor | close_touches]
    | eexists [_; _]; split; [constructor | close_touches] ].
Qed.

Lemma run_job_trail env j w d :
  let k := match j with ClassifyJob u t _ | AskJob u t _ => (u, t) end in
  tasks (db w) !! k = Some d →
  ∃ ds, trail d ds ∧ touches k ds w (snd (run_job env j w)).
Proof.
  destruct j; simpl; intros Hd.
  - by apply processClassifyDocumentTask_trail.
  - by apply processAskQuestionTask_trail.
Qed.

(** ** The effect of a submission *)

Lemma touches_trans k ds1 ds2 w w1 w2 :
  touches k ds1 w w1 → touches k ds2 w1 w2 → touches k (ds1 ++ ds2) w w2.
Proof.
  intros (Hw1 & Ht1 & Hl1) (Hw2 & Ht2 & Hl2). unfold touches.
  rewrite Hw2, Hw1, Ht2, Ht1, Hl2, Hl1, map_app, foldl_app, app_assoc. done.
Qed.

Lemma foldl_insert_same k (ds : list TaskDoc) (m : gmap (string * string) TaskDoc) :
  foldl (fun m d => <[k := d]> m) m ds !! k
  = match last ds with Some d => Some d | None => m !! k end.
Proof.
  revert m. induction ds as [|d ds IH]; intros m; [done|].
  simpl foldl. rewrite IH, last_cons. destruct (last ds); [done|].
  by rewrite lookup_insert_eq.
Qed.

Lemma foldl_insert_other k k' (ds : list TaskDoc) (m : gmap (string * string) TaskDoc) :
  k ≠ k' → foldl (fun m d => <[k := d]> m) m ds !! k' = m !! k'.
Proof.
  intros Hne. revert m. induction ds as [|d ds IH]; intros m; [done|].
  simpl. by rewrite IH, lookup_insert_ne.
Qed.

(** A submission changes nothing, or creates one task under a fresh id and
    writes the trail of the call it started. *)
Lemma submit_effect env userId taskData w :
  let w' := snd (submit env userId taskData w) in
  (writes w' = writes w ∧ tasks (db w') = tasks (db w) ∧ lawyers (db w') = lawyers (db w))
  ∨ ∃ td taskId ds,
      taskData = Some td
      ∧ tasks (db w) !! (userId, taskId) = None
      ∧ trail (pending_doc env td) ds
      ∧ touches (userId, taskId) (pending_doc env td :: ds) w w'.
Proof.
  unfold submit, createTask.
  destruct (falsy userId) eqn:Hu, taskData as [td|]; simpl; try by left.
  unfold try_catch, mbind, async_bind, bind, add_task.
  destruct (tasks_add env userId (pending_doc env td)) as [taskId|e|] eqn:Hadd;
    simpl; try by left.
  destruct (tasks (db w) !! (userId, taskId)) eqn:Hfresh; simpl; [by left|].
  right. exists td, taskId.
  set (w1 := persist_task (userId, taskId) (pending_doc env td) w).
  assert (touches (userId, taskId) [pending_doc env td] w w1) as Hfirst
    by (unfold touches, w1; done).
  assert (tasks (db w1) !! (userId, taskId) = Some (pending_doc env td)) as Hd
    by (unfold w1; simpl; by rewrite lookup_insert_eq).
  repeat case_match; simplify_eq/=.
  - destruct (run_job_trail env (ClassifyJob userId taskId (td_payload td)) w1 _ Hd)
      as (ds & Htrail & Hrest).
    exists ds. do 3 (split; [done|]).
    by apply (touches_trans _ [_] ds _ w1).
  - destruct (run_job_trail env (AskJob userId taskId (td_payload td)) w1 _ Hd)
      as (ds & Htrail & Hrest).
    exists ds. do 3 (split; [done|]).
    by apply (touches_trans _ [_] ds _ w1).
  - exists []. do 2 (split; [done|]). split; [constructor|done].
Qed.


(** ** Consistency of the store and the log *)

Lemma consistent_start (past : gmap (string * string) HistoryDoc) (bar : list Lawyer) :
  consistent (start past bar : World).
Proof. intros k. simpl. by rewrite lookup_empty. Qed.

Lemma consistent_submit env userId taskData w :
  consistent w → consistent (snd (submit env userId taskData w)).
Proof.
  intros Hw.
  destruct (submit_effect env userId taskData w)
    as [(Hlog & Hstore & _) | (td & taskId & ds & -> & Hfresh & Htrail & Hlog & Hstore & _)].
  - intros k. rewrite Hstore, Hlog. apply Hw.
  - intros k. rewrite Hstore, Hlog, writes_to_app.
    destruct (decide (k = (userId, taskId))) as [->|Hne].
    + rewrite foldl_insert_same, writes_to_same.
      pose proof (Hw (userId, taskId)) as Hk. rewrite Hfresh in Hk. rewrite Hk.
      destruct (last (pending_doc env td :: ds)) as [d|] eqn:Hlast.
      * exists (pending_doc env td), ds. by repeat split.
      * by rewrite last_cons in Hlast; destruct (last ds).
    + rewrite foldl_insert_other, writes_to_other, app_nil_r by done. apply Hw.
Qed.

Lemma consistent_session (calls : list Call) w :
  consistent w → consistent (session calls w).
Proof.
  revert w. induction calls as [|c calls IH]; intros w Hw; [done|].
  apply IH. by apply consistent_submit.
Qed.

(** A task that is in the store is out of reach of every later submission:
    its document and its log stay as they are. *)
Lemma submit_frame env userId taskData w k d :
  tasks (db w) !! k = Some d →
  tasks (db (snd (submit env userId taskData w))) !! k = Some d
  ∧ writes_to k (writes (snd (submit env userId taskData w))) = writes_to k (writes w).
Proof.
  intros Hd.
  destruct (submit_effect env userId taskData w)
    as [(Hlog & Hstore & _) | (td & taskId & ds & -> & Hfresh & Htrail & Hlog & Hstore & _)].
  - by rewrite Hstore, Hlog.
  - assert ((userId, taskId) ≠ k) as Hne by (intros <-; congruence).
    by rewrite Hstore, Hlog, writes_to_app, foldl_insert_other, writes_to_other, app_nil_r.
Qed.

Lemma session_frame (calls : list Call) w k d :
  tasks (db w) !! k = Some d →
  tasks (db (session calls w)) !! k = Some d
  ∧ writes_to k (writes (session calls w)) = writes_to k (writes w).
Proof.
  revert w. induction calls as [|c calls IH]; intros w Hd; [done|].
  simpl. destruct (submit_frame (call_env c) (call_userId c) (call_taskData c) w k d Hd)
    as [Hd' Hlog'].
  destruct (IH _ Hd') as [Hd'' Hlog'']. split; [done|]. by rewrite Hlog''.
Qed.

(** ** The shapes of a trail *)

Ltac sublist_greedy :=
  repeat first [apply sublist_nil | apply sublist_skip | apply sublist_cons].

Lemma trail_follows_order d0 ds :
  status d0 = "pending" → trail d0 ds → follows_order (map status (d0 :: ds)).
Proof.
  intros Hp Htrail. unfold follows_order.
  destruct Htrail; simpl; rewrite Hp;
    first [left; solve [sublist_greedy] | right; solve [sublist_greedy]].
Qed.

Lemma trail_terminal_is_last d0 ds :
  status d0 = "pending" → trail d0 ds → terminal_is_last (map status (d0 :: ds)).
Proof.
  intros Hp Htrail before s after Heq Hs.
  destruct Htrail; simpl in Heq; rewrite Hp in Heq;
    repeat (destruct before as [|? before]; simplify_eq/=; try done).
Qed.

Lemma trail_fields_agree d0 ds :
  status d0 = "pending" → result d0 = None → error d0 = None → trail d0 ds →
  Forall (fun d => fields_agree d = true) (d0 :: ds).
Proof.
  intros Hp Hr He Htrail.
  destruct Htrail; repeat constructor; unfold fields_agree; simpl;
    rewrite ?Hp, ?Hr, ?He; done.
Qed.

Lemma elem_of_writes_to k d (log : list (string * string * TaskDoc)) :
  (k, d) ∈ log → d ∈ writes_to k log.
Proof.
  intros Hin. unfold writes_to. apply list_elem_of_fmap. exists (k, d). split; [done|].
  by apply list_elem_of_filter.
Qed.

(** ** The claims about the life of a task *)

(** C2.  The status of a task moves along pending → processing →
    {completed, failed}: in every session of submissions, the status
    values written to any one task document form a subsequence of one of
    the two paths, and nothing is written to a task after a terminal
    status. *)
Theorem status_is_monotonic (calls : list Call)
    (past : gmap (string * string) HistoryDoc) (bar : list Lawyer) k :
  follows_order (map status (writes_to k (writes (session calls (start past bar)))))
  ∧ terminal_is_last (map status (writes_to k (writes (session calls (start past bar))))).
Proof.
  pose proof (consistent_session calls _ (consistent_start past bar) k) as Hk.
  destruct (tasks (db (session calls (start past bar))) !! k) as [d|].
  - destruct Hk as (d0 & ds & Hp & _ & _ & Htrail & -> & _).
    split; [by apply trail_follows_order | by apply trail_terminal_is_last].
  - rewrite Hk. split.
    + left. simpl. sublist_greedy.
    + intros [|? ?] ? ? ?; simplify_eq.
Qed.

(** C3.  In every session of submissions, every task document, in the
    store and in each revision that was persisted, has exactly one of
    [result] and [error] set when its status is terminal ([result] when
    completed, [error] when failed) and neither when it is pending or
    processing. *)
Theorem result_xor_error (calls : list Call)
    (past : gmap (string * string) HistoryDoc) (bar : list Lawyer) :
  map_Forall (fun _ d => fields_agree d = true) (tasks (db (session calls (start past bar))))
  ∧ Forall (fun e => fields_agree (snd e) = true) (writes (session calls (start past bar))).
Proof.
  pose proof (consistent_session calls _ (consistent_start past bar)) as Hcons.
  set (w := session calls (start past bar)) in *.
  split.
  - intros k d Hd. specialize (Hcons k). rewrite Hd in Hcons.
    destruct Hcons as (d0 & ds & Hp & Hr & He & Htrail & _ & Hlast).
    pose proof (trail_fields_agree d0 ds Hp Hr He Htrail) as Hall.
    rewrite Forall_forall in Hall. apply Hall. by apply last_Some_elem_of.
  - apply Forall_forall. intros [k d] Hin. simpl.
    apply elem_of_writes_to in Hin. specialize (Hcons k).
    destruct (tasks (db w) !! k).
    + destruct Hcons as (d0 & ds & Hp & Hr & He & Htrail & Hlog & _).
      pose proof (trail_fields_agree d0 ds Hp Hr He Htrail) as Hall.
      rewrite Forall_forall in Hall. apply Hall. by rewrite <- Hlog.
    + rewrite Hcons in Hin. by apply elem_of_nil in Hin.
Qed.

(** ** The claims about [createTask] *)

(** C1, amended.  A call of [createTask] with an empty user id, or with
    no task data, returns the validation error at once, starts no call and
    leaves the world as it is: no task record is created.  (The type of the
    task is not validated.) *)
Theorem validation_rejects env userId (taskData : option TaskData) w :
  falsy userId = true ∨ taskData = None →
  createTask env userId taskData w
    = (Returned (Error "User ID and task data are required.", None), w)
  ∧ submit env userId taskData w
    = (Returned (Error "User ID and task data are required."), w).
Proof.
  intros Hbad. unfold submit, createTask.
  destruct (falsy userId), taskData as [td|]; try done.
  by destruct Hbad.
Qed.

(** C4.  When the user id is not empty and the first write of the pending
    record succeeds with the id [taskId], [createTask] returns that id; and
    it returns the same in every environment that answers the first write
    in the same way, whatever the flows and the later writes do there. *)
Theorem response_ignores_handler env env' userId (td : TaskData) w taskId :
  falsy userId = false →
  fst (add_task env userId (pending_doc env td) w) = Returned taskId →
  serverTimestamp env' = serverTimestamp env →
  tasks_add env' = tasks_add env →
  fst (submit env userId (Some td) w) = Returned (TaskId taskId)
  ∧ fst (submit env' userId (Some td) w) = Returned (TaskId taskId).
Proof.
  intros Hu Hadd Hclock Hsame.
  assert (pending_doc env' td = pending_doc env td) as Hdoc
    by (unfold pending_doc; by rewrite Hclock).
  unfold submit, createTask, try_catch, mbind, async_bind, bind, add_task in *.
  rewrite Hu, Hdoc, Hsame.
  destruct (tasks_add env userId (pending_doc env td)); simpl in *; [|done..].
  destruct (tasks (db w) !! (userId, a)); simpl in *; [done|]. simplify_eq.
  split; repeat case_match; simplify_eq/=; done.
Qed.

(** C6.  When the first write of the pending record fails, [createTask]
    returns an error that carries the message of the failure, starts no
    call, and the world is as it was: no flow was invoked, no task record
    and no status update was persisted. *)
Theorem failed_write_creates_nothing env userId (td : TaskData) w message :
  falsy userId = false →
  fst (add_task env userId (pending_doc env td) w) = Thrown message →
  createTask env userId (Some td) w
    = (Returned (Error ("Failed to create the task. " +:+ message), None), w)
  ∧ submit env userId (Some td) w
    = (Returned (Error ("Failed to create the task. " +:+ message)), w).
Proof.
  intros Hu Hadd.
  unfold submit, createTask, try_catch, mbind, async_bind, bind, add_task in *.
  rewrite Hu.
  destruct (tasks_add env userId (pending_doc env td)); simpl in *; [|by simplify_eq..].
  destruct (tasks (db w) !! (userId, a)); simpl in *; by simplify_eq.
Qed.

(** C10, amended.  A call of [createTask] with a non-empty user id and a
    type that is neither 'classifyDocument' nor 'askQuestion', whose first
    write succeeds, creates one pending record and returns its id; it
    invokes no flow and writes nothing more, and no later submission
    touches the record: it stays pending. *)
Theorem unknown_type_stays_pending env userId (td : TaskData) w taskId :
  falsy userId = false →
  td_type td ≠ "classifyDocument" →
  td_type td ≠ "askQuestion" →
  fst (add_task env userId (pending_doc env td) w) = Returned taskId →
  let w' := persist_task (userId, taskId) (pending_doc env td) w in
  status (pending_doc env td) = "pending"
  ∧ createTask env userId (Some td) w = (Returned (TaskId taskId, None), w')
  ∧ submit env userId (Some td) w = (Returned (TaskId taskId), w')
  ∧ invoked w' = invoked w
  ∧ ∀ calls : list Call,
      tasks (db (session calls w')) !! (userId, taskId) = Some (pending_doc env td)
      ∧ writes_to (userId, taskId) (writes (session calls w'))
        = writes_to (userId, taskId) (writes w) ++ [pending_doc env td].
Proof.
  intros Hu Hc Ha Hadd w'.
  apply String.eqb_neq in Hc, Ha.
  assert (createTask env userId (Some td) w = (Returned (TaskId taskId, None), w')) as Hcreate.
  { unfold createTask, try_catch, mbind, async_bind, bind, add_task in *.
    rewrite Hu, Hc, Ha.
    destruct (tasks_add env userId (pending_doc env td)); simpl in *; [|done..].
    destruct (tasks (db w) !! (userId, a)); simpl in *; [done|]. by simplify_eq. }
  split; [done|]. split; [done|]. split; [by unfold submit; rewrite Hcreate|].
  split; [done|]. intros calls.
  assert (tasks (db w') !! (userId, taskId) = Some (pending_doc env td)) as Hd
    by (unfold w'; simpl; by rewrite lookup_insert_eq).
  destruct (session_frame calls w' _ _ Hd) as [Hstore Hlog]. split; [done|].
  rewrite Hlog. unfold w'. simpl. rewrite writes_to_app.
  by rewrite (writes_to_same (userId, taskId) [pending_doc env td] : writes_to _ [(_, _)] = _).
Qed.

(** ** The outcome of the started call *)

(** Where a submission whose first write succeeded leaves the world. *)
Lemma submit_started env userId (td : TaskData) w taskId :
  falsy userId = false →
  fst (add_task env userId (pending_doc env td) w) = Returned taskId →
  let w1 := persist_task (userId, taskId) (pending_doc env td) w in
  tasks (db w1) !! (userId, taskId) = Some (pending_doc env td)
  ∧ snd (submit env userId (Some td) w)
    = if String.eqb (td_type td) "classifyDocument"
      then snd (processClassifyDocumentTask env userId taskId (td_payload td) w1)
      else if String.eqb (td_type td) "askQuestion"
      then snd (processAskQuestionTask env userId taskId (td_payload td) w1)
      else w1.
Proof.
  intros Hu Hadd w1. split; [unfold w1; simpl; by rewrite lookup_insert_eq|].
  unfold submit, createTask, try_catch, mbind, async_bind, bind, add_task in *.
  rewrite Hu.
  destruct (tasks_add env userId (pending_doc env td)); simpl in *; [|done..].
  destruct (tasks (db w) !! (userId, a)); simpl in *; [done|]. simplify_eq.
  destruct (String.eqb (td_type td) "classifyDocument"); [done|].
  by destruct (String.eqb (td_type td) "askQuestion").
Qed.

Lemma ask_completed env userId taskId input w d r :
  tasks (db w) !! (userId, taskId) = Some d →
  tasks_update env userId taskId set_processing = Fulfilled tt →
  askDocumentQuestion env input = Fulfilled (Value r) →
  tasks_update env userId taskId (set_completed (Answer r)) = Fulfilled tt →
  tasks (db (snd (processAskQuestionTask env userId taskId input w))) !! (userId, taskId)
  = Some (merge (merge d set_processing) (set_completed (Answer r))).
Proof.
  intros Hd Hp Hflow Hc. unfold_async. rewrite Hd, Hp. simpl.
  rewrite Hflow. simpl. rewrite lookup_insert_eq, Hc. simpl.
  by rewrite lookup_insert_eq.
Qed.

Lemma ask_failed env userId taskId input w d m :
  tasks (db w) !! (userId, taskId) = Some d →
  tasks_update env userId taskId set_processing = Fulfilled tt →
  failure (askDocumentQuestion env input) = Some m →
  tasks_update env userId taskId (set_failed m) = Fulfilled tt →
  tasks (db (snd (processAskQuestionTask env userId taskId input w))) !! (userId, taskId)
  = Some (merge (merge d set_processing) (set_failed m)).
Proof.
  intros Hd Hp Hflow Hf. unfold_async. rewrite Hd, Hp. simpl.
  destruct (askDocumentQuestion env input) as [[r|e]|e|]; simplify_eq/=;
    rewrite lookup_insert_eq, Hf; simpl; by rewrite lookup_insert_eq.
Qed.

Lemma classify_failed env userId taskId input w d m :
  tasks (db w) !! (userId, taskId) = Some d →
  tasks_update env userId taskId set_processing = Fulfilled tt →
  failure (classifyDocument env input) = Some m →
  tasks_update env userId taskId (set_failed m) = Fulfilled tt →
  tasks (db (snd (processClassifyDocumentTask env userId taskId input w))) !! (userId, taskId)
  = Some (merge (merge d set_processing) (set_failed m)).
Proof.
  intros Hd Hp Hflow Hf. unfold_async. rewrite Hd, Hp. simpl.
  destruct (classifyDocument env input) as [[r|e]|e|]; simplify_eq/=;
    rewrite lookup_insert_eq, Hf; simpl; by rewrite lookup_insert_eq.
Qed.

(** The history step settles with the tasks, the log and the lawyers as
    they were, whatever the store answers, as long as it answers. *)
Lemma save_to_history_settles env userId (finalResult : AnalysisResult) input w :
  (∀ h, history_add env userId h ≠ Forever) →
  ∃ w', save_to_history env userId finalResult input w = (Returned tt, w')
        ∧ tasks (db w') = tasks (db w)
        ∧ lawyers (db w') = lawyers (db w)
        ∧ writes w' = writes w
        ∧ invoked w' = invoked w.
Proof.
  intros Hsettles. unfold_async.
  destruct (history_doc env finalResult input) as [h|]; simpl; [|by eexists].
  pose proof (Hsettles h).
  destruct (history_add env userId h) eqn:?; simpl; [|by eexists|done].
  destruct (history (db w) !! (userId, a)); simpl; by eexists.
Qed.

Lemma classify_completed env userId taskId input w d r :
  tasks (db w) !! (userId, taskId) = Some d →
  tasks_update env userId taskId set_processing = Fulfilled tt →
  classifyDocument env input = Fulfilled (Value r) →
  (falsy (lawyerCategory r) = false → lawyers_get env (lawyerCategory r) = Fulfilled tt) →
  (∀ h, history_add env userId h ≠ Forever) →
  tasks_update env userId taskId (set_completed (Analysis (full_result r (lawyers (db w)))))
    = Fulfilled tt →
  tasks (db (snd (processClassifyDocumentTask env userId taskId input w))) !! (userId, taskId)
  = Some (merge (merge d set_processing)
            (set_completed (Analysis (full_result r (lawyers (db w)))))).
Proof.
  intros Hd Hp Hflow Hq Hsettles Hc.
  unfold processClassifyDocumentTask, updateTask, update_task, call_flow, try_catch,
    await, mbind, async_bind, bind, ret.
  rewrite Hd, Hp. simpl. rewrite Hflow. simpl.
  unfold full_result in *. unfold recommend, query_lawyers, mbind, async_bind, bind, mret,
    async_ret, ret.
  destruct (falsy (lawyerCategory r)) eqn:Hcat; simpl in *.
  - edestruct (save_to_history_settles env userId) as (w' & -> & Ht & _ & _ & _); [done|].
    rewrite Ht. simpl. rewrite lookup_insert_eq, Hc. simpl. rewrite Ht. simpl.
    by rewrite lookup_insert_eq.
  - rewrite (Hq eq_refl). simpl.
    destruct (recommendation r _) as [recommended range]. simpl in *.
    edestruct (save_to_history_settles env userId) as (w' & -> & Ht & _ & _ & _); [done|].
    rewrite Ht. simpl. rewrite lookup_insert_eq, Hc. simpl. rewrite Ht. simpl.
    by rewrite lookup_insert_eq.
Qed.

(** ** Computations that differ only in the history *)

Lemma agree_refl w : agree w w.
Proof. done. Qed.

Lemma similar_ret {A} (a : A) : similar (mret a : Async A) (mret a).
Proof. by intros w w' Hw. Qed.

Lemma similar_throw {A} message : similar (throw message : Async A) (throw message).
Proof. by intros w w' Hw. Qed.

Lemma similar_bind {A B} (m m' : Async A) (f f' : A → Async B) :
  similar m m' → (∀ a, similar (f a) (f' a)) → similar (m ≫= f) (m' ≫= f').
Proof.
  intros Hm Hf w w' Hw. destruct (Hm w w' Hw) as [Hc Hw'].
  unfold mbind, async_bind, bind.
  destruct (m w) as [c w1], (m' w') as [c' w1']. simpl in *. subst c'.
  destruct c; [by apply Hf|done..].
Qed.

Lemma similar_try_catch {A} (m m' : Async A) (h h' : string → Async A) :
  similar m m' → (∀ e, similar (h e) (h' e)) → similar (try_catch m h) (try_catch m' h').
Proof.
  intros Hm Hh w w' Hw. destruct (Hm w w' Hw) as [Hc Hw'].
  unfold try_catch.
  destruct (m w) as [c w1], (m' w') as [c' w1']. simpl in *. subst c'.
  destruct c; [done|by apply Hh|done].
Qed.

Lemma similar_updateTask env env' userId taskId u :
  tasks_update env' = tasks_update env →
  similar (updateTask env userId taskId u) (updateTask env' userId taskId u).
Proof.
  intros Hsame w w' (Ht & Hl & Hb). unfold updateTask, update_task.
  rewrite Hsame, <- Ht.
  destruct (tasks (db w) !! (userId, taskId)); [|done].
  destruct (tasks_update env userId taskId u); [|done..].
  unfold agree. simpl. by rewrite Ht, Hl.
Qed.

Lemma similar_call_flow {A} flow (f : Json → Promise A) input :
  similar (call_flow flow f input : Async A) (call_flow flow f input).
Proof.
  intros w w' Hw. unfold call_flow, await, ret, throw. by destruct (f input).
Qed.

Lemma similar_recommend env env' r :
  lawyers_get env' = lawyers_get env →
  similar (recommend env r) (recommend env' r).
Proof.
  intros Hsame. unfold recommend. destruct (negb (falsy (lawyerCategory r))).
  - apply similar_bind; [|intros; apply similar_ret].
    intros w w' (Ht & Hl & Hb). unfold query_lawyers. rewrite Hsame, Hb.
    by destruct (lawyers_get env (lawyerCategory r)).
  - apply similar_ret.
Qed.

Lemma similar_save_to_history env env' userId (finalResult : AnalysisResult) input :
  (∀ h, history_add env userId h ≠ Forever) →
  (∀ h, history_add env' userId h ≠ Forever) →
  similar (save_to_history env userId finalResult input)
          (save_to_history env' userId finalResult input).
Proof.
  intros Hs Hs' w w' (Ht & Hl & Hb).
  destruct (save_to_history_settles env userId finalResult input w Hs)
    as (w1 & -> & Ht1 & Hb1 & Hl1 & _).
  destruct (save_to_history_settles env' userId finalResult input w' Hs')
    as (w1' & -> & Ht1' & Hb1' & Hl1' & _).
  unfold agree. simpl. by rewrite Ht1, Ht1', Hl1, Hl1', Hb1, Hb1'.
Qed.

Lemma similar_processClassifyDocumentTask env env' userId taskId input :
  tasks_update env' = tasks_update env →
  lawyers_get env' = lawyers_get env →
  classifyDocument env' = classifyDocument env →
  (∀ h, history_add env userId h ≠ Forever) →
  (∀ h, history_add env' userId h ≠ Forever) →
  similar (processClassifyDocumentTask env userId taskId input)
          (processClassifyDocumentTask env' userId taskId input).
Proof.
  intros Hu Hq Hf Hs Hs'. unfold processClassifyDocumentTask. rewrite Hf.
  apply similar_try_catch; [|intros; by apply similar_updateTask].
  apply similar_bind; [by apply similar_updateTask|]. intros _.
  apply similar_bind; [apply similar_call_flow|]. intros [r|e]; [|apply similar_throw].
  apply similar_bind; [by apply similar_recommend|]. intros [recommended range].
  apply similar_bind; [by apply similar_save_to_history|]. intros _.
  by apply similar_updateTask.
Qed.

(** ** Computations that leave the history alone *)

Lemma keeps_history_ret {A} (a : A) : keeps_history (mret a : Async A).
Proof. done. Qed.

Lemma keeps_history_throw {A} message : keeps_history (throw message : Async A).
Proof. done. Qed.

Lemma keeps_history_bind {A B} (m : Async A) (f : A → Async B) :
  keeps_history m → (∀ a, keeps_history (f a)) → keeps_history (m ≫= f).
Proof.
  intros Hm Hf w. specialize (Hm w). unfold mbind, async_bind, bind.
  destruct (m w) as [[a|e|] w1]; simpl in *; [|done..].
  by rewrite Hf.
Qed.

Lemma keeps_history_try_catch {A} (m : Async A) (h : string → Async A) :
  keeps_history m → (∀ e, keeps_history (h e)) → keeps_history (try_catch m h).
Proof.
  intros Hm Hh w. specialize (Hm w). unfold try_catch.
  destruct (m w) as [[a|e|] w1]; simpl in *; [done| |done].
  by rewrite Hh.
Qed.

Lemma keeps_history_updateTask env userId taskId u :
  keeps_history (updateTask env userId taskId u).
Proof.
  intros w. unfold updateTask, update_task.
  destruct (tasks (db w) !! (userId, taskId)); [|done].
  by destruct (tasks_update env userId taskId u).
Qed.

Lemma keeps_history_call_flow {A} flow (f : Json → Promise A) input :
  keeps_history (call_flow flow f input : Async A).
Proof. intros w. unfold call_flow, await, ret, throw. by destruct (f input). Qed.

Lemma keeps_history_recommend env r : keeps_history (recommend env r).
Proof.
  unfold recommend. destruct (negb (falsy (lawyerCategory r))); [|done].
  apply keeps_history_bind; [|done].
  intros w. unfold query_lawyers. by destruct (lawyers_get env (lawyerCategory r)).
Qed.

Lemma save_to_history_rejected env (reject : string → HistoryDoc → Promise string)
    userId (finalResult : AnalysisResult) input w :
  (∀ u h, ∃ m, reject u h = Rejected m) →
  save_to_history (with_history_add reject env) userId finalResult input w = (Returned tt, w).
Proof.
  intros Hreject. unfold_async. simpl.
  destruct (history_doc _ finalResult input) as [h|]; simpl; [|done].
  by destruct (Hreject userId h) as [m ->].
Qed.

Lemma keeps_history_processClassifyDocumentTask env
    (reject : string → HistoryDoc → Promise string) userId taskId input :
  (∀ u h, ∃ m, reject u h = Rejected m) →
  keeps_history (processClassifyDocumentTask (with_history_add reject env) userId taskId input).
Proof.
  intros Hreject. unfold processClassifyDocumentTask.
  apply keeps_history_try_catch; [|intros; apply keeps_history_updateTask].
  apply keeps_history_bind; [apply keeps_history_updateTask|]. intros _.
  apply keeps_history_bind; [apply keeps_history_call_flow|].
  intros [r|e]; [|apply keeps_history_throw].
  apply keeps_history_bind; [apply keeps_history_recommend|]. intros [recommended range].
  apply keeps_history_bind; [|intros; apply keeps_history_updateTask].
  intros w. by rewrite save_to_history_rejected.
Qed.

(** C5, amended.  For a submitted task whose flow runs (the record was
    created and the write of [processing] succeeded):
    - if the flow throws with message [m], or resolves to the failure value
      [{ error: m }], and the write of [failed] succeeds, the task ends
      failed with [error] equal to [m];
    - if the flow resolves to a result and the write of [completed]
      succeeds, the task ends completed; [result] is the flow's result for
      'askQuestion', and for 'classifyDocument' the flow's result extended
      with the recommended lawyers and the estimated cost range, provided
      the query for the lawyers is answered and the write to the history
      settles. *)
Theorem handler_outcome_is_recorded env userId (td : TaskData) w taskId :
  falsy userId = false →
  fst (add_task env userId (pending_doc env td) w) = Returned taskId →
  tasks_update env userId taskId set_processing = Fulfilled tt →
  let final := tasks (db (snd (submit env userId (Some td) w))) !! (userId, taskId) in
  (td_type td = "askQuestion" →
     (∀ r,
        askDocumentQuestion env (td_payload td) = Fulfilled (Value r) →
        tasks_update env userId taskId (set_completed (Answer r)) = Fulfilled tt →
        ends_completed final (Answer r))
     ∧ (∀ m,
        failure (askDocumentQuestion env (td_payload td)) = Some m →
        tasks_update env userId taskId (set_failed m) = Fulfilled tt →
        ends_failed final m))
  ∧ (td_type td = "classifyDocument" →
     (∀ r,
        classifyDocument env (td_payload td) = Fulfilled (Value r) →
        (falsy (lawyerCategory r) = false →
         lawyers_get env (lawyerCategory r) = Fulfilled tt) →
        (∀ h, history_add env userId h ≠ Forever) →
        tasks_update env userId taskId
          (set_completed (Analysis (full_result r (lawyers (db w))))) = Fulfilled tt →
        ends_completed final (Analysis (full_result r (lawyers (db w)))))
     ∧ (∀ m,
        failure (classifyDocument env (td_payload td)) = Some m →
        tasks_update env userId taskId (set_failed m) = Fulfilled tt →
        ends_failed final m)).
Proof.
  intros Hu Hadd Hp final.
  destruct (submit_started env userId td w taskId Hu Hadd) as [Hd Hsubmit].
  unfold final. rewrite Hsubmit. clear final Hsubmit.
  split; intros Htype; rewrite Htype; simpl; split.
  - intros r Hflow Hc. rewrite (ask_completed _ _ _ _ _ _ r Hd Hp Hflow Hc).
    by eexists.
  - intros m Hflow Hf. rewrite (ask_failed _ _ _ _ _ _ m Hd Hp Hflow Hf).
    by eexists.
  - intros r Hflow Hq Hsettles Hc.
    rewrite (classify_completed _ _ _ _ _ _ r Hd Hp Hflow Hq Hsettles Hc).
    by eexists.
  - intros m Hflow Hf. rewrite (classify_failed _ _ _ _ _ _ m Hd Hp Hflow Hf).
    by eexists.
Qed.

(** C9.  In the classifyDocument handler a failed write to the history does
    not fail the task.  With a store that rejects every write to the
    history, the task documents and the log of task writes end exactly as
    they do with a store that answers those writes in any other way, and
    the history is left as it was; in particular, when the flow returns a
    result and the task's own writes succeed, the task ends completed with
    its full result. *)
Theorem history_failure_does_not_fail_task env
    (reject : string → HistoryDoc → Promise string) userId taskId input w :
  (∀ u h, ∃ m, reject u h = Rejected m) →
  (∀ h, history_add env userId h ≠ Forever) →
  let w_ref := snd (processClassifyDocumentTask env userId taskId input w) in
  let w_rej :=
    snd (processClassifyDocumentTask (with_history_add reject env) userId taskId input w) in
  tasks (db w_rej) = tasks (db w_ref)
  ∧ writes w_rej = writes w_ref
  ∧ history (db w_rej) = history (db w)
  ∧ ∀ d r,
      tasks (db w) !! (userId, taskId) = Some d →
      error d = None →
      tasks_update env userId taskId set_processing = Fulfilled tt →
      classifyDocument env input = Fulfilled (Value r) →
      (falsy (lawyerCategory r) = false →
       lawyers_get env (lawyerCategory r) = Fulfilled tt) →
      tasks_update env userId taskId
        (set_completed (Analysis (full_result r (lawyers (db w))))) = Fulfilled tt →
      ends_completed (tasks (db w_rej) !! (userId, taskId))
        (Analysis (full_result r (lawyers (db w)))).
Proof.
  intros Hreject Hsettles w_ref w_rej.
  assert (∀ h, history_add (with_history_add reject env) userId h ≠ Forever) as Hsettles'.
  { intros h. simpl. by destruct (Hreject userId h) as [m ->]. }
  destruct (similar_processClassifyDocumentTask env (with_history_add reject env)
              userId taskId input eq_refl eq_refl eq_refl Hsettles Hsettles' w w (agree_refl w))
    as (_ & Htasks & Hlog & _).
  split; [done|]. split; [done|].
  split; [by apply keeps_history_processClassifyDocumentTask|].
  intros d r Hd He Hp Hflow Hq Hc. unfold w_rej.
  rewrite (classify_completed (with_history_add reject env) _ _ _ _ d r); try done.
  by eexists.
Qed.

End Properties.

(** * Properties of the hook *)
Section HookProperties.

Import UseTask.

Context {number Timestamp DocumentAnalysis AskDocumentQuestionOutput : Type}.

Abbreviation HookState :=
  (@UseTask.State number Timestamp DocumentAnalysis AskDocumentQuestionOutput).
Abbreviation HookEvent :=
  (@UseTask.Event number Timestamp DocumentAnalysis AskDocumentQuestionOutput).
Abbreviation TaskDoc :=
  (@Actions.TaskDoc number Timestamp DocumentAnalysis AskDocumentQuestionOutput).
Abbreviation Revision :=
  (@Actions.World number Timestamp DocumentAnalysis AskDocumentQuestionOutput).

Implicit Types (s : HookState) (evs : list HookEvent) (ws : list Revision).

Lemma run_cons s ev evs : run s (ev :: evs) = run (deliver s ev) evs.
Proof. done. Qed.

Lemma run_detached s evs : listening s = None → run s evs = s.
Proof.
  intros Hs. induction evs as [|ev evs IH]; [done|].
  rewrite run_cons. replace (deliver s ev) with s; [done|].
  unfold deliver. by rewrite Hs.
Qed.

(** While the document is missing the listener stays attached, reports the
    missing document and calls [onUpdate] for nothing. *)
Lemma run_missing path s ws :
  listening s = Some path →
  Forall (fun w => Actions.tasks (Actions.db w) !! path = None) ws →
  let s' := run s (map (snapshot path) ws) in
  listening s' = Some path
  ∧ updates s' = updates s
  ∧ task s' = task s
  ∧ (ws ≠ [] → error s' = Some "Task not found." ∧ isLoading s' = false).
Proof.
  intros Hs Hws. revert s Hs. induction Hws as [|w ws Hw Hws IH]; intros s Hs; [done|].
  simpl map. rewrite run_cons.
  assert (deliver s (snapshot path w)
          = setIsLoading false (setError (Some "Task not found.") s)) as ->.
  { unfold deliver, snapshot. by rewrite Hs, Hw. }
  destruct (IH (setIsLoading false (setError (Some "Task not found.") s)) Hs)
    as (Hl & Hu & Ht & He).
  split; [done|]. split; [done|]. split; [done|]. intros _.
  destruct ws as [|w' ws']; [done|]. by apply He.
Qed.

(** C7.  A snapshot with a terminal status that reaches the listener is
    passed to [onUpdate], the listener is detached inside that same
    dispatch, and whatever is sent afterwards changes nothing: no further
    [onUpdate] call is made.  In particular a subscription to a task that
    is already terminal makes exactly one call, with the terminal state. *)
Theorem terminal_update_is_last s path (taskData : TaskDoc) evs :
  listening s = Some path →
  finished taskData = true →
  let s' := deliver s (Snapshot (Some taskData)) in
  updates s' = updates s ++ [taskData]
  ∧ listening s' = None
  ∧ run s' evs = s'
  ∧ ∀ (taskId : string) (user : User),
      Actions.falsy taskId = false →
      updates (run (effect (Some taskId) (Some user) initial)
                 (Snapshot (Some taskData) :: evs)) = [taskData].
Proof.
  intros Hs Hdone s'.
  assert (∀ s0 p, listening s0 = Some p →
            updates (deliver s0 (Snapshot (Some taskData))) = updates s0 ++ [taskData]
            ∧ listening (deliver s0 (Snapshot (Some taskData))) = None) as Hstep.
  { intros s0 p Hs0. unfold deliver, onNext. by rewrite Hs0, Hdone. }
  destruct (Hstep s path Hs) as [Hu Hl].
  split; [done|]. split; [done|]. split; [by apply run_detached|].
  intros taskId user Hid. rewrite run_cons.
  assert (listening (effect (Some taskId) (Some user) (initial : HookState))
          = Some (uid user, taskId)) as Hsub
    by (unfold effect; by rewrite Hid).
  destruct (Hstep _ _ Hsub) as [Hu0 Hl0].
  rewrite run_detached by done. rewrite Hu0. unfold effect. by rewrite Hid.
Qed.

(** C8.  A subscription to a task id under which the store holds no record
    reports 'Task not found.' to its observer, and for as long as the
    record is missing [onUpdate] is never called. *)
Theorem missing_task_is_reported (taskId : string) (user : User) (w : Revision) ws :
  Actions.falsy taskId = false →
  Forall (fun w => Actions.tasks (Actions.db w) !! (uid user, taskId) = None) (w :: ws) →
  let s := watch (Some taskId) (Some user) (w :: ws) in
  updates s = []
  ∧ error s = Some "Task not found."
  ∧ isLoading s = false
  ∧ task s = None.
Proof.
  intros Hid Hmissing s.
  assert (listening (effect (Some taskId) (Some user) (initial : HookState))
          = Some (uid user, taskId)) as Hsub
    by (unfold effect; by rewrite Hid).
  unfold s, watch. rewrite Hsub.
  destruct (run_missing _ _ _ Hsub Hmissing) as (_ & Hu & Ht & He).
  destruct He as [He Hl]; [done|].
  rewrite Hu, Ht, He, Hl. unfold effect. by rewrite Hid.
Qed.

End HookProperties.

(** * The theorems at concrete inputs *)
Section Instances.

Import Actions Example.

(** A classification that goes through: the two tenant lawyers are
    recommended, the costs are 3 hearings at 2000 and at 500, and the task
    ends completed after pending and processing. *)
Lemma classification_sample :
  fst (submit reliable "u1" (Some classify_data) empty_world) = Returned (TaskId "t1")
  ∧ map status (writes_to ("u1", "t1")
                  (writes (snd (submit reliable "u1" (Some classify_data) empty_world))))
    = ["pending"; "processing"; "completed"]
  ∧ (result <$> tasks (db (snd (submit reliable "u1" (Some classify_data) empty_world)))
                  !! ("u1", "t1"))
    = Some (Some (Analysis
        {| classification :=
             {| analysis := "overview";
                expenditureAnalysis :=
                  {| proceedingType := "Arbitration";
                     estimatedHearings := 3%Z;
                     costFactors := ["Lawyer fees"];
                     disclaimer := "A rough estimate." |};
                lawyerCategory := "Tenant Law" |};
           recommendedLawyers := filter (fun l => specialty l = "Tenant Law") bar;
           estimatedCostRange := "₹1500 - ₹6000" |}))
  ∧ dom (history (db (snd (submit reliable "u1" (Some classify_data) empty_world))))
    = {[ ("u1", "h1") ]}.
Proof. repeat split; vm_compute; reflexivity. Qed.

(** C1, as stated, fails: with an empty type, and with a type that names
    no handler, [createTask] returns a task id, not a validation error, and
    the pending record is created. *)
Lemma type_is_not_validated :
  td_type untyped_data = ""
  ∧ submit reliable "u1" (Some untyped_data) empty_world
    = (Returned (TaskId "t1"),
       persist_task ("u1", "t1") (pending_doc reliable untyped_data) empty_world)
  ∧ td_type echo_data = "echo"
  ∧ submit reliable "u1" (Some echo_data) empty_world
    = (Returned (TaskId "t1"),
       persist_task ("u1", "t1") (pending_doc reliable echo_data) empty_world)
  ∧ tasks (db (snd (submit reliable "u1" (Some untyped_data) empty_world))) !! ("u1", "t1")
    = Some (pending_doc reliable untyped_data).
Proof. repeat split; vm_compute; reflexivity. Qed.

Lemma validation_rejects_witness :
  (falsy "" = true ∨ Some echo_data = None)
  ∧ createTask reliable "" (Some echo_data) empty_world
    = (Returned (Error "User ID and task data are required.", None), empty_world)
  ∧ submit reliable "" (Some echo_data) empty_world
    = (Returned (Error "User ID and task data are required."), empty_world).
Proof.
  split; [left; reflexivity|].
  apply (validation_rejects reliable "" (Some echo_data) empty_world).
  left. reflexivity.
Defined.

Lemma response_ignores_handler_witness :
  fst (submit reliable "u1" (Some ask_data) empty_world) = Returned (TaskId "t1")
  ∧ fst (submit disk_full "u1" (Some ask_data) empty_world) = Returned (TaskId "t1").
Proof.
  apply (response_ignores_handler reliable disk_full "u1" ask_data empty_world "t1").
  - reflexivity.
  - vm_compute. reflexivity.
  - reflexivity.
  - reflexivity.
Defined.

(** C5, as stated, fails: the question flow returns a result, the store
    rejects the write of [completed], and the task ends failed with the
    message of the store. *)
Lemma rejected_completion_fails_task :
  askDocumentQuestion completed_rejected question = Fulfilled (Value "The deposit is returned.")
  ∧ invoked (snd (submit completed_rejected "u1" (Some ask_data) empty_world))
    = [("askDocumentQuestion", question)]
  ∧ ends_failed
      (tasks (db (snd (submit completed_rejected "u1" (Some ask_data) empty_world)))
         !! ("u1", "t1"))
      "UNAVAILABLE"
  ∧ ¬ ends_completed
      (tasks (db (snd (submit completed_rejected "u1" (Some ask_data) empty_world)))
         !! ("u1", "t1"))
      (Answer "The deposit is returned.").
Proof.
  split; [reflexivity|]. split; [vm_compute; reflexivity|]. split.
  - eexists. split; [vm_compute; reflexivity|]. repeat split.
  - intros (d & Hd & Hs & _). vm_compute in Hd. inversion Hd; subst d. discriminate Hs.
Qed.

Lemma handler_outcome_is_recorded_witness :
  ends_completed
    (tasks (db (snd (submit reliable "u1" (Some ask_data) empty_world))) !! ("u1", "t1"))
    (Answer "The deposit is returned.")
  ∧ ends_failed
      (tasks (db (snd (submit disk_full "u1" (Some ask_data) empty_world))) !! ("u1", "t1"))
      "disk full".
Proof.
  split.
  - destruct (handler_outcome_is_recorded reliable "u1" ask_data empty_world "t1")
      as [Hask _]; [reflexivity | vm_compute; reflexivity | reflexivity |].
    destruct (Hask eq_refl) as [Hdone _]. apply Hdone; reflexivity.
  - destruct (handler_outcome_is_recorded disk_full "u1" ask_data empty_world "t1")
      as [Hask _]; [reflexivity | vm_compute; reflexivity | reflexivity |].
    destruct (Hask eq_refl) as [_ Hfailed]. apply Hfailed; reflexivity.
Defined.

Lemma failed_write_creates_nothing_witness :
  createTask add_rejected "u1" (Some ask_data) empty_world
    = (Returned (Error "Failed to create the task. UNAVAILABLE", None), empty_world)
  ∧ submit add_rejected "u1" (Some ask_data) empty_world
    = (Returned (Error "Failed to create the task. UNAVAILABLE"), empty_world).
Proof.
  apply (failed_write_creates_nothing add_rejected "u1" ask_data empty_world "UNAVAILABLE").
  - reflexivity.
  - vm_compute. reflexivity.
Defined.

Lemma terminal_update_is_last_witness :
  UseTask.updates (UseTask.deliver mounted (UseTask.Snapshot (Some answered))) = [answered]
  ∧ UseTask.listening (UseTask.deliver mounted (UseTask.Snapshot (Some answered))) = None
  ∧ UseTask.run (UseTask.deliver mounted (UseTask.Snapshot (Some answered)))
      [UseTask.Snapshot (Some answered); UseTask.Snapshot None]
    = UseTask.deliver mounted (UseTask.Snapshot (Some answered)).
Proof.
  destruct (terminal_update_is_last mounted ("u1", "t1") answered
              [UseTask.Snapshot (Some answered); UseTask.Snapshot None])
    as (Hu & Hl & Hr & _); [reflexivity | reflexivity |].
  split; [exact Hu|]. split; [exact Hl | exact Hr].
Defined.

Lemma missing_task_is_reported_witness :
  UseTask.updates (UseTask.watch (Some "t9") (Some alice) [empty_world; created]) = []
  ∧ UseTask.error (UseTask.watch (Some "t9") (Some alice) [empty_world; created])
    = Some "Task not found."
  ∧ UseTask.isLoading (UseTask.watch (Some "t9") (Some alice) [empty_world; created]) = false
  ∧ UseTask.task (UseTask.watch (Some "t9") (Some alice) [empty_world; created]) = None.
Proof.
  apply (missing_task_is_reported "t9" alice empty_world [created]).
  - reflexivity.
  - repeat constructor.
Defined.

Lemma history_failure_does_not_fail_task_witness :
  ends_completed
    (tasks (db (snd (processClassifyDocumentTask
                       (with_history_add history_rejected reliable) "u1" "t1" upload created)))
       !! ("u1", "t1"))
    (Analysis (full_result
                 {| analysis := "overview";
                    expenditureAnalysis :=
                      {| proceedingType := "Arbitration";
                         estimatedHearings := 3%Z;
                         costFactors := ["Lawyer fees"];
                         disclaimer := "A rough estimate." |};
                    lawyerCategory := "Tenant Law" |}
                 bar)).
Proof.
  destruct (history_failure_does_not_fail_task reliable history_rejected "u1" "t1" upload created)
    as (_ & _ & _ & Hdone).
  - intros u h. exists "PERMISSION_DENIED". reflexivity.
  - intros h. discriminate.
  - apply (Hdone (pending_doc reliable classify_data)); reflexivity.
Defined.

(** C10, as stated, fails: when the store rejects the first write, a call
    with a type that names no handler returns an error and creates no
    record. *)
Lemma unknown_type_with_rejected_write :
  falsy "u1" = false
  ∧ td_type echo_data ≠ "classifyDocument"
  ∧ td_type echo_data ≠ "askQuestion"
  ∧ submit add_rejected "u1" (Some echo_data) empty_world
    = (Returned (Error "Failed to create the task. UNAVAILABLE"), empty_world)
  ∧ tasks (db empty_world) = ∅.
Proof. repeat split; try discriminate; vm_compute; reflexivity. Qed.

Lemma unknown_type_stays_pending_witness :
  submit reliable "u1" (Some echo_data) empty_world
    = (Returned (TaskId "t1"),
       persist_task ("u1", "t1") (pending_doc reliable echo_data) empty_world)
  ∧ tasks (db (session [ {| call_env := reliable; call_userId := "u2";
                            call_taskData := Some ask_data |} ]
                 (persist_task ("u1", "t1") (pending_doc reliable echo_data) empty_world)))
      !! ("u1", "t1")
    = Some (pending_doc reliable echo_data).
Proof.
  destruct (unknown_type_stays_pending reliable "u1" echo_data empty_world "t1")
    as (_ & _ & Hsubmit & _ & Hlater);
    [reflexivity | discriminate | discriminate | vm_compute; reflexivity |].
  split; [exact Hsubmit|]. apply Hlater.
Defined.

End Instances.

(** * Further properties of the task actions *)
Section TaskProperties.

Import Actions.

Context `{JsNumber number}.
Context {Timestamp DocumentAnalysis AskDocumentQuestionOutput : Type}.

Abbreviation TaskDoc :=
  (@Actions.TaskDoc number Timestamp DocumentAnalysis AskDocumentQuestionOutput).
Abbreviation Env :=
  (@Actions.Env number Timestamp DocumentAnalysis AskDocumentQuestionOutput).
Abbreviation World :=
  (@Actions.World number Timestamp DocumentAnalysis AskDocumentQuestionOutput).
Abbreviation TaskData := (@Actions.TaskData number).
Abbreviation Call :=
  (@Actions.Call number Timestamp DocumentAnalysis AskDocumentQuestionOutput).
Abbreviation HistoryDoc := (@Actions.HistoryDoc number Timestamp DocumentAnalysis).
Abbreviation Lawyer := (@Actions.Lawyer number).
Abbreviation Async :=
  (@Actions.Async number Timestamp DocumentAnalysis AskDocumentQuestionOutput).
Abbreviation Json := (@Actions.Json number).
Abbreviation ClassifyDocumentOutput := (@Actions.ClassifyDocumentOutput number DocumentAnalysis).

Implicit Types (env : Env) (w : World) (d : TaskDoc) (k : string * string).

(** ** Tasks stay with their owner *)

Lemma submit_other_owner env userId taskData w other taskId :
  userId ≠ other →
  tasks (db (snd (submit env userId taskData w))) !! (other, taskId)
    = tasks (db w) !! (other, taskId)
  ∧ writes_to (other, taskId) (writes (snd (submit env userId taskData w)))
    = writes_to (other, taskId) (writes w).
Proof.
  intros Hne.
  destruct (submit_effect env userId taskData w)
    as [(Hlog & Hstore & _) | (td & tid & ds & -> & Hfresh & Htrail & Hlog & Hstore & _)].
  - by rewrite Hstore, Hlog.
  - assert ((userId, tid) ≠ (other, taskId)) as Hk by congruence.
    by rewrite Hstore, Hlog, writes_to_app, foldl_insert_other, writes_to_other, app_nil_r.
Qed.

(** X1.  Submissions write under the namespace of their caller only: a
    session in which no call is made for the user [other] leaves every
    task document of [other], and its log, as they were. *)
Theorem submissions_stay_with_their_owner (calls : list Call) w other taskId :
  Forall (fun c => call_userId c ≠ other) calls →
  tasks (db (session calls w)) !! (other, taskId) = tasks (db w) !! (other, taskId)
  ∧ writes_to (other, taskId) (writes (session calls w)) = writes_to (other, taskId) (writes w).
Proof.
  intros Hcalls. revert w. induction Hcalls as [|c calls Hc Hcalls IH]; intros w; [done|].
  simpl. destruct (IH (snd (submit (call_env c) (call_userId c) (call_taskData c) w)))
    as [-> ->].
  by apply submit_other_owner.
Qed.

(** ** Calls of the flows *)

Lemma quiet_ret {A} (a : A) : quiet (mret a : Async A).
Proof. done. Qed.

Lemma quiet_throw {A} message : quiet (throw message : Async A).
Proof. done. Qed.

Lemma quiet_bind {A B} (m : Async A) (f : A → Async B) :
  quiet m → (∀ a, quiet (f a)) → quiet (m ≫= f).
Proof.
  intros Hm Hf w. specialize (Hm w). unfold mbind, async_bind, bind.
  destruct (m w) as [[a|e|] w1]; simpl in *; [|done..]. by rewrite Hf.
Qed.

Lemma quiet_try_catch {A} (m : Async A) (h : string → Async A) :
  quiet m → (∀ e, quiet (h e)) → quiet (try_catch m h).
Proof.
  intros Hm Hh w. specialize (Hm w). unfold try_catch.
  destruct (m w) as [[a|e|] w1]; simpl in *; [done| |done]. by rewrite Hh.
Qed.

Lemma quiet_updateTask env userId taskId u : quiet (updateTask env userId taskId u).
Proof.
  intros w. unfold updateTask, update_task.
  destruct (tasks (db w) !! (userId, taskId)); [|done].
  by destruct (tasks_update env userId taskId u).
Qed.

Lemma quiet_recommend env r : quiet (recommend env r).
Proof.
  unfold recommend. destruct (negb (falsy (lawyerCategory r))); [|done].
  apply quiet_bind; [|done].
  intros w. unfold query_lawyers. by destruct (lawyers_get env (lawyerCategory r)).
Qed.

Lemma quiet_save_to_history env userId (fr : AnalysisResult) input :
  quiet (save_to_history env userId fr input).
Proof.
  unfold save_to_history. apply quiet_try_catch; [|done].
  destruct (history_doc env fr input) as [h|]; [|done].
  apply quiet_bind; [|done].
  intros w. unfold add_history. destruct (history_add env userId h); [|done..].
  by destruct (history (db w) !! (userId, a)).
Qed.

Lemma calls_once_quiet {A} flow input (m : Async A) : quiet m → calls_once flow input m.
Proof. intros Hm w. left. apply Hm. Qed.

Lemma calls_once_call_flow {A} flow (f : Json → Promise A) input :
  calls_once flow input (call_flow flow f input : Async A).
Proof. intros w. right. unfold call_flow, await, ret, throw. by destruct (f input). Qed.

Lemma calls_once_then {A B} flow input (m : Async A) (f : A → Async B) :
  calls_once flow input m → (∀ a, quiet (f a)) → calls_once flow input (m ≫= f).
Proof.
  intros Hm Hf w. specialize (Hm w). unfold mbind, async_bind, bind.
  destruct (m w) as [[a|e|] w1]; simpl in *; [|done..]. by rewrite Hf.
Qed.

Lemma calls_once_after {A B} flow input (m : Async A) (f : A → Async B) :
  quiet m → (∀ a, calls_once flow input (f a)) → calls_once flow input (m ≫= f).
Proof.
  intros Hm Hf w. specialize (Hm w). unfold mbind, async_bind, bind.
  destruct (m w) as [[a|e|] w1]; simpl in *; [|by left..].
  rewrite <- Hm. apply Hf.
Qed.

Lemma calls_once_try_catch {A} flow input (m : Async A) (h : string → Async A) :
  calls_once flow input m → (∀ e, quiet (h e)) → calls_once flow input (try_catch m h).
Proof.
  intros Hm Hh w. specialize (Hm w). unfold try_catch.
  destruct (m w) as [[a|e|] w1]; simpl in *; [done| |done]. by rewrite Hh.
Qed.

Lemma calls_once_processAskQuestionTask env userId taskId input :
  calls_once "askDocumentQuestion" input (processAskQuestionTask env userId taskId input).
Proof.
  unfold processAskQuestionTask.
  apply calls_once_try_catch; [|intros; apply quiet_updateTask].
  apply calls_once_after; [apply quiet_updateTask|]. intros _.
  apply calls_once_then; [apply calls_once_call_flow|].
  intros [r|e]; [apply quiet_updateTask|apply quiet_throw].
Qed.

Lemma calls_once_processClassifyDocumentTask env userId taskId input :
  calls_once "classifyDocument" input (processClassifyDocumentTask env userId taskId input).
Proof.
  unfold processClassifyDocumentTask.
  apply calls_once_try_catch; [|intros; apply quiet_updateTask].
  apply calls_once_after; [apply quiet_updateTask|]. intros _.
  apply calls_once_then; [apply calls_once_call_flow|].
  intros [r|e]; [|apply quiet_throw].
  apply quiet_bind; [apply quiet_recommend|]. intros [recommended range].
  apply quiet_bind; [apply quiet_save_to_history|]. intros _. apply quiet_updateTask.
Qed.

(** X2.  A submission calls at most one flow, at most once, and with the
    payload it was given: 'classifyDocument' for that type, 
    'askDocumentQuestion' for 'askQuestion', none for any other type. *)
Theorem flow_called_at_most_once env userId (taskData : option TaskData) w :
  let w' := snd (submit env userId taskData w) in
  invoked w' = invoked w
  ∨ ∃ td,
      taskData = Some td
      ∧ (td_type td = "classifyDocument"
         ∧ invoked w' = invoked w ++ [("classifyDocument", td_payload td)]
         ∨ td_type td = "askQuestion"
           ∧ invoked w' = invoked w ++ [("askDocumentQuestion", td_payload td)]).
Proof.
  unfold submit, createTask.
  destruct (falsy userId), taskData as [td|]; simpl; try by left.
  unfold try_catch, mbind, async_bind, bind, add_task.
  destruct (tasks_add env userId (pending_doc env td)) as [taskId|e|]; simpl; try by left.
  destruct (tasks (db w) !! (userId, taskId)); simpl; [by left|].
  set (w1 := persist_task (userId, taskId) (pending_doc env td) w).
  destruct (String.eqb (td_type td) "classifyDocument") eqn:Hc; simpl.
  { apply String.eqb_eq in Hc.
    destruct (calls_once_processClassifyDocumentTask env userId taskId (td_payload td) w1)
      as [Hq|Hq]; [by left|].
    right. exists td. split; [done|]. left. by split. }
  destruct (String.eqb (td_type td) "askQuestion") eqn:Ha; simpl; [|by left].
  apply String.eqb_eq in Ha.
  destruct (calls_once_processAskQuestionTask env userId taskId (td_payload td) w1)
    as [Hq|Hq]; [by left|].
  right. exists td. split; [done|]. right. by split.
Qed.

(** ** When a step of the started call fails *)

Lemma response_started env userId (td : TaskData) w taskId :
  falsy userId = false →
  fst (add_task env userId (pending_doc env td) w) = Returned taskId →
  fst (submit env userId (Some td) w) = Returned (TaskId taskId).
Proof.
  intros Hu Hadd.
  unfold submit, createTask, try_catch, mbind, async_bind, bind, add_task in *.
  rewrite Hu.
  destruct (tasks_add env userId (pending_doc env td)); simpl in *; [|done..].
  destruct (tasks (db w) !! (userId, a)); simpl in *; [done|]. simplify_eq.
  destruct (String.eqb (td_type td) "classifyDocument"); [done|].
  by destruct (String.eqb (td_type td) "askQuestion").
Qed.

Ltac unfold_async :=
  unfold processAskQuestionTask, processClassifyDocumentTask, save_to_history,
    recommend, updateTask, update_task, add_task, add_history, query_lawyers,
    call_flow, try_catch, await, throw, mbind, async_bind, mret, async_ret, bind, ret in *.

(** The world a handler leaves when the write of [processing] is rejected
    and the write of [failed] is accepted. *)
Lemma processing_rejected_world env userId taskId w d m (process : Async unit) :
  process = processAskQuestionTask env userId taskId (payload d)
  ∨ process = processClassifyDocumentTask env userId taskId (payload d) →
  tasks (db w) !! (userId, taskId) = Some d →
  tasks_update env userId taskId set_processing = Rejected m →
  tasks_update env userId taskId (set_failed m) = Fulfilled tt →
  snd (process w) = persist_task (userId, taskId) (merge d (set_failed m)) w.
Proof.
  intros [-> | ->] Hd Hp Hf; unfold_async; rewrite Hd, Hp; simpl; by rewrite Hd, Hf.
Qed.

(** X3.  When the store rejects the write of [processing] with the message
    [m], the flow is never called; if the write of [failed] is then
    accepted, the task goes from pending straight to failed with [error]
    equal to [m], and nothing is added to the history. *)
Theorem rejected_processing_skips_the_flow env userId (td : TaskData) w taskId m :
  falsy userId = false →
  fst (add_task env userId (pending_doc env td) w) = Returned taskId →
  td_type td = "classifyDocument" ∨ td_type td = "askQuestion" →
  tasks_update env userId taskId set_processing = Rejected m →
  tasks_update env userId taskId (set_failed m) = Fulfilled tt →
  let w' := snd (submit env userId (Some td) w) in
  invoked w' = invoked w
  ∧ writes w' = writes w ++ [ (userId, taskId, pending_doc env td);
                               (userId, taskId, merge (pending_doc env td) (set_failed m)) ]
  ∧ ends_failed (tasks (db w') !! (userId, taskId)) m
  ∧ history (db w') = history (db w).
Proof.
  intros Hu Hadd Htype Hp Hf w'.
  destruct (submit_started env userId td w taskId Hu Hadd) as [Hd Hsubmit].
  assert (w' = persist_task (userId, taskId) (merge (pending_doc env td) (set_failed m))
                 (persist_task (userId, taskId) (pending_doc env td) w)) as ->.
  { unfold w'. rewrite Hsubmit. destruct Htype as [-> | ->]; simpl.
    - by apply (processing_rejected_world env userId taskId _ (pending_doc env td) m); [right|..].
    - by apply (processing_rejected_world env userId taskId _ (pending_doc env td) m); [left|..]. }
  simpl. rewrite lookup_insert_eq, <- app_assoc. split; [done|]. split; [done|].
  split; [by eexists|done].
Qed.

Lemma ask_unsettled env userId taskId input w d :
  tasks (db w) !! (userId, taskId) = Some d →
  tasks_update env userId taskId set_processing = Fulfilled tt →
  askDocumentQuestion env input = Forever →
  snd (processAskQuestionTask env userId taskId input w)
  = log_call "askDocumentQuestion" input
      (persist_task (userId, taskId) (merge d set_processing) w).
Proof. intros Hd Hp Hflow. unfold_async. rewrite Hd, Hp. simpl. by rewrite Hflow. Qed.

Lemma classify_unsettled env userId taskId input w d :
  tasks (db w) !! (userId, taskId) = Some d →
  tasks_update env userId taskId set_processing = Fulfilled tt →
  classifyDocument env input = Forever →
  snd (processClassifyDocumentTask env userId taskId input w)
  = log_call "classifyDocument" input
      (persist_task (userId, taskId) (merge d set_processing) w).
Proof. intros Hd Hp Hflow. unfold_async. rewrite Hd, Hp. simpl. by rewrite Hflow. Qed.

(** X4.  When the flow never settles, [createTask] has still returned the
    task id, and the task stays [processing], with neither [result] nor
    [error]: nothing moves it to a terminal state. *)
Theorem unsettled_flow_leaves_task_processing env userId (td : TaskData) w taskId :
  falsy userId = false →
  fst (add_task env userId (pending_doc env td) w) = Returned taskId →
  tasks_update env userId taskId set_processing = Fulfilled tt →
  td_type td = "classifyDocument" ∧ classifyDocument env (td_payload td) = Forever
  ∨ td_type td = "askQuestion" ∧ askDocumentQuestion env (td_payload td) = Forever →
  fst (submit env userId (Some td) w) = Returned (TaskId taskId)
  ∧ tasks (db (snd (submit env userId (Some td) w))) !! (userId, taskId)
    = Some (merge (pending_doc env td) set_processing)
  ∧ writes (snd (submit env userId (Some td) w))
    = writes w ++ [ (userId, taskId, pending_doc env td);
                    (userId, taskId, merge (pending_doc env td) set_processing) ].
Proof.
  intros Hu Hadd Hp Hflow.
  pose proof (response_started env userId td w taskId Hu Hadd) as Hresp.
  destruct (submit_started env userId td w taskId Hu Hadd) as [Hd Hsubmit].
  split; [done|]. rewrite Hsubmit.
  destruct Hflow as [[-> Hflow] | [-> Hflow]]; simpl.
  - rewrite (classify_unsettled env userId taskId _ _ _ Hd Hp Hflow). simpl.
    by rewrite lookup_insert_eq, <- app_assoc.
  - rewrite (ask_unsettled env userId taskId _ _ _ Hd Hp Hflow). simpl.
    by rewrite lookup_insert_eq, <- app_assoc.
Qed.

Lemma ask_unrecorded env userId taskId input w d m e :
  tasks (db w) !! (userId, taskId) = Some d →
  tasks_update env userId taskId set_processing = Fulfilled tt →
  failure (askDocumentQuestion env input) = Some m →
  tasks_update env userId taskId (set_failed m) = Rejected e →
  processAskQuestionTask env userId taskId input w
  = (Thrown e, log_call "askDocumentQuestion" input
                 (persist_task (userId, taskId) (merge d set_processing) w)).
Proof.
  intros Hd Hp Hflow Hf. unfold_async. rewrite Hd, Hp. simpl.
  destruct (askDocumentQuestion env input) as [[r|?]|?|]; simplify_eq/=;
    by rewrite lookup_insert_eq, Hf.
Qed.

Lemma classify_unrecorded env userId taskId input w d m e :
  tasks (db w) !! (userId, taskId) = Some d →
  tasks_update env userId taskId set_processing = Fulfilled tt →
  failure (classifyDocument env input) = Some m →
  tasks_update env userId taskId (set_failed m) = Rejected e →
  processClassifyDocumentTask env userId taskId input w
  = (Thrown e, log_call "classifyDocument" input
                 (persist_task (userId, taskId) (merge d set_processing) w)).
Proof.
  intros Hd Hp Hflow Hf. unfold_async. rewrite Hd, Hp. simpl.
  destruct (classifyDocument env input) as [[r|?]|?|]; simplify_eq/=;
    by rewrite lookup_insert_eq, Hf.
Qed.

(** X5.  When the flow fails with the message [m] and the store rejects
    the write of [failed] with [e], the started call ends with the
    exception [e], which nothing catches; the task stays [processing] and
    [m] is recorded nowhere.  [createTask] has returned the task id all the
    same. *)
Theorem unrecorded_failure_leaves_task_processing env userId (td : TaskData) w taskId m e :
  falsy userId = false →
  fst (add_task env userId (pending_doc env td) w) = Returned taskId →
  tasks_update env userId taskId set_processing = Fulfilled tt →
  td_type td = "classifyDocument" ∧ failure (classifyDocument env (td_payload td)) = Some m
  ∨ td_type td = "askQuestion" ∧ failure (askDocumentQuestion env (td_payload td)) = Some m →
  tasks_update env userId taskId (set_failed m) = Rejected e →
  let w1 := persist_task (userId, taskId) (pending_doc env td) w in
  fst (submit env userId (Some td) w) = Returned (TaskId taskId)
  ∧ tasks (db (snd (submit env userId (Some td) w))) !! (userId, taskId)
    = Some (merge (pending_doc env td) set_processing)
  ∧ ∃ j, createTask env userId (Some td) w = (Returned (TaskId taskId, Some j), w1)
         ∧ fst (run_job env j w1) = Thrown e.
Proof.
  intros Hu Hadd Hp Hflow Hf w1. subst w1.
  pose proof (response_started env userId td w taskId Hu Hadd) as Hresp.
  destruct (submit_started env userId td w taskId Hu Hadd) as [Hd Hsubmit].
  split; [done|]. rewrite Hsubmit.
  assert (createTask env userId (Some td) w
          = (Returned (TaskId taskId,
                       if String.eqb (td_type td) "classifyDocument"
                       then Some (ClassifyJob userId taskId (td_payload td))
                       else if String.eqb (td_type td) "askQuestion"
                       then Some (AskJob userId taskId (td_payload td))
                       else None),
             persist_task (userId, taskId) (pending_doc env td) w)) as Hcreate.
  { unfold createTask, try_catch, mbind, async_bind, bind, add_task in *. rewrite Hu.
    destruct (tasks_add env userId (pending_doc env td)); simpl in *; [|done..].
    destruct (tasks (db w) !! (userId, a)); simpl in *; [done|]. by simplify_eq. }
  rewrite Hcreate.
  destruct Hflow as [[-> Hflow] | [-> Hflow]]; simpl.
  - rewrite (classify_unrecorded env userId taskId _ _ _ m e Hd Hp Hflow Hf). simpl.
    rewrite lookup_insert_eq. split; [done|]. eexists. split; [done|]. simpl.
    by rewrite (classify_unrecorded env userId taskId _ _ _ m e Hd Hp Hflow Hf).
  - rewrite (ask_unrecorded env userId taskId _ _ _ m e Hd Hp Hflow Hf). simpl.
    rewrite lookup_insert_eq. split; [done|]. eexists. split; [done|]. simpl.
    by rewrite (ask_unrecorded env userId taskId _ _ _ m e Hd Hp Hflow Hf).
Qed.

Lemma classify_query_rejected env userId taskId input w d r m :
  tasks (db w) !! (userId, taskId) = Some d →
  tasks_update env userId taskId set_processing = Fulfilled tt →
  classifyDocument env input = Fulfilled (Value r) →
  falsy (lawyerCategory r) = false →
  lawyers_get env (lawyerCategory r) = Rejected m →
  tasks_update env userId taskId (set_failed m) = Fulfilled tt →
  snd (processClassifyDocumentTask env userId taskId input w)
  = persist_task (userId, taskId) (merge (merge d set_processing) (set_failed m))
      (log_call "classifyDocument" input
         (persist_task (userId, taskId) (merge d set_processing) w)).
Proof.
  intros Hd Hp Hflow Hcat Hq Hf. unfold_async. rewrite Hd, Hp. simpl.
  rewrite Hflow. simpl. rewrite Hcat. simpl. rewrite Hq. simpl.
  by rewrite lookup_insert_eq, Hf.
Qed.

(** X6.  A classification whose flow returned a result still fails when
    the query for the lawyers is rejected: the task ends failed with the
    message of the query, and nothing is written to the history. *)
Theorem rejected_lawyer_query_fails_task env userId (td : TaskData) w taskId r m :
  falsy userId = false →
  fst (add_task env userId (pending_doc env td) w) = Returned taskId →
  td_type td = "classifyDocument" →
  tasks_update env userId taskId set_processing = Fulfilled tt →
  classifyDocument env (td_payload td) = Fulfilled (Value r) →
  falsy (lawyerCategory r) = false →
  lawyers_get env (lawyerCategory r) = Rejected m →
  tasks_update env userId taskId (set_failed m) = Fulfilled tt →
  ends_failed (tasks (db (snd (submit env userId (Some td) w))) !! (userId, taskId)) m
  ∧ history (db (snd (submit env userId (Some td) w))) = history (db w).
Proof.
  intros Hu Hadd Htype Hp Hflow Hcat Hq Hf.
  destruct (submit_started env userId td w taskId Hu Hadd) as [Hd Hsubmit].
  rewrite Hsubmit, Htype. simpl.
  rewrite (classify_query_rejected env userId taskId _ _ _ r m Hd Hp Hflow Hcat Hq Hf).
  simpl. rewrite lookup_insert_eq. split; [by eexists|done].
Qed.

(** ** The lawyers that are recommended *)

Lemma take_sublist {A} n (l : list A) : take n l `sublist_of` l.
Proof.
  revert n. induction l as [|x l IH]; intros [|n]; simpl;
    [constructor | constructor | apply sublist_nil_l | by apply sublist_skip].
Qed.

(** X7.  The lawyers recommended for a classification are at most three,
    all of the category the flow named, in the order of the collection;
    none is recommended when the category is empty.  A cost range other
    than 'N/A' is given only when the estimated number of hearings is
    positive and some recommended lawyer has a positive cost for them. *)
Theorem recommended_lawyers_match env (r : ClassifyDocumentOutput) w recommended range w' :
  recommend env r w = (Returned (recommended, range), w') →
  w' = w
  ∧ length recommended ≤ 3
  ∧ Forall (fun l => specialty l = lawyerCategory r) recommended
  ∧ recommended `sublist_of` lawyers (db w)
  ∧ (lawyerCategory r = "" → recommended = [])
  ∧ (range ≠ "N/A" →
     positive (estimatedHearings (expenditureAnalysis r)) = true
     ∧ Exists (fun l => positive (mul (costPerHearing l)
                                      (estimatedHearings (expenditureAnalysis r))) = true)
              recommended).
Proof.
  unfold recommend, query_lawyers, mbind, async_bind, bind, mret, async_ret, ret.
  destruct (falsy (lawyerCategory r)) eqn:Hcat; simpl.
  { intros [= <- <- <-]. split_and!; try done; [simpl; lia|apply sublist_nil_l]. }
  destruct (lawyers_get env (lawyerCategory r)); simpl; [|done..].
  set (docs := take 3 (filter _ (lawyers (db w)))).
  assert (length docs ≤ 3) as Hlen by (unfold docs; rewrite length_take; lia).
  assert (Forall (fun l => specialty l = lawyerCategory r) docs) as Hall.
  { unfold docs. apply Forall_take, Forall_forall. intros l Hl.
    by apply list_elem_of_filter in Hl as [Hl _]. }
  assert (docs `sublist_of` lawyers (db w)) as Hsub.
  { unfold docs. etrans; [apply take_sublist|apply sublist_filter]. }
  unfold recommendation. case_bool_decide as Hempty; simpl.
  { intros [= <- <- <-]. split_and!; try done; [simpl; lia|apply sublist_nil_l]. }
  intros [= <- <- <-]. split; [done|]. split; [done|]. split; [done|]. split; [done|].
  split.
  { intros Hno. unfold falsy in Hcat. apply String.eqb_neq in Hcat. done. }
  unfold cost_range. intros Hrange.
  destruct (positive (estimatedHearings (expenditureAnalysis r))) eqn:Hpos; simpl in *; [|done].
  repeat case_bool_decide; simpl in *; try done.
  split; [done|].
  match goal with
  | Hc : length (filter ?P ?l) ≠ 0 |- _ => destruct (filter P l) as [|c costs] eqn:Hcosts
  end; [done|].
  assert (c ∈ c :: costs) as Hin by left. rewrite <- Hcosts in Hin.
  apply list_elem_of_filter in Hin as [Hc Hin].
  apply list_elem_of_fmap in Hin as (l & -> & Hl).
  apply Exists_exists. by exists l.
Qed.

(** ** What the history receives *)

(** The world a classification leaves when every step but the write to
    the history is known to succeed, in terms of the world [w3] that the
    history step leaves. *)
Lemma classify_world env userId taskId input w d r w3 :
  tasks (db w) !! (userId, taskId) = Some d →
  tasks_update env userId taskId set_processing = Fulfilled tt →
  classifyDocument env input = Fulfilled (Value r) →
  (falsy (lawyerCategory r) = false → lawyers_get env (lawyerCategory r) = Fulfilled tt) →
  save_to_history env userId (full_result r (lawyers (db w))) input
    (log_call "classifyDocument" input
       (persist_task (userId, taskId) (merge d set_processing) w)) = (Returned tt, w3) →
  tasks (db w3) !! (userId, taskId) = Some (merge d set_processing) →
  tasks_update env userId taskId
    (set_completed (Analysis (full_result r (lawyers (db w))))) = Fulfilled tt →
  snd (processClassifyDocumentTask env userId taskId input w)
  = persist_task (userId, taskId)
      (merge (merge d set_processing)
         (set_completed (Analysis (full_result r (lawyers (db w)))))) w3.
Proof.
  intros Hd Hp Hflow Hq Hsave Hd3 Hc.
  unfold processClassifyDocumentTask, updateTask, update_task, call_flow, try_catch,
    await, mbind, async_bind, bind, ret.
  rewrite Hd, Hp. simpl. rewrite Hflow. simpl.
  unfold full_result in *. unfold recommend, query_lawyers, mbind, async_bind, bind, mret,
    async_ret, ret.
  destruct (falsy (lawyerCategory r)) eqn:Hcat; simpl in *.
  - rewrite Hsave, Hd3, Hc. done.
  - rewrite (Hq eq_refl). simpl.
    destruct (recommendation r _) as [recommended range]. simpl in *.
    rewrite Hsave, Hd3, Hc. done.
Qed.

(** X8.  A classification that completes with an object payload and an
    accepted write to the history leaves exactly one new history document,
    under the generated id: the same analysis as the task's [result],
    with the file name, content and type of the payload. *)
Theorem completed_analysis_is_saved env userId (td : TaskData) w taskId r
    (name content mime : Json) hid :
  falsy userId = false →
  fst (add_task env userId (pending_doc env td) w) = Returned taskId →
  td_type td = "classifyDocument" →
  tasks_update env userId taskId set_processing = Fulfilled tt →
  classifyDocument env (td_payload td) = Fulfilled (Value r) →
  (falsy (lawyerCategory r) = false → lawyers_get env (lawyerCategory r) = Fulfilled tt) →
  prop (td_payload td) "fileName" = Some name →
  prop (td_payload td) "fileAsBase64" = Some content →
  prop (td_payload td) "mimeType" = Some mime →
  let saved :=
    {| h_result := full_result r (lawyers (db w));
       h_fileName := name;
       h_fileAsBase64 := content;
       h_mimeType := mime;
       h_createdAt := serverTimestamp env |} in
  history_add env userId saved = Fulfilled hid →
  history (db w) !! (userId, hid) = None →
  tasks_update env userId taskId (set_completed (Analysis (h_result saved))) = Fulfilled tt →
  history (db (snd (submit env userId (Some td) w)))
    = <[(userId, hid) := saved]> (history (db w))
  ∧ ends_completed (tasks (db (snd (submit env userId (Some td) w))) !! (userId, taskId))
      (Analysis (h_result saved)).
Proof.
  intros Hu Hadd Htype Hp Hflow Hq Hname Hcontent Hmime saved Hsave Hfresh Hc.
  destruct (submit_started env userId td w taskId Hu Hadd) as [Hd Hsubmit].
  rewrite Hsubmit, Htype. simpl.
  set (w2 := log_call "classifyDocument" (td_payload td)
               (persist_task (userId, taskId) (merge (pending_doc env td) set_processing)
                  (persist_task (userId, taskId) (pending_doc env td) w))).
  rewrite (classify_world env userId taskId _ _ _ r
             (persist_history (userId, hid) saved w2) Hd Hp Hflow Hq).
  - simpl. rewrite lookup_insert_eq. split; [done|by eexists].
  - unfold save_to_history, history_doc, try_catch, add_history, mbind, async_bind, bind,
      mret, async_ret, ret.
    simpl. rewrite Hname, Hcontent, Hmime. simpl.
    fold saved. by rewrite Hsave, Hfresh.
  - simpl. by rewrite lookup_insert_eq.
  - done.
Qed.


(** ** The flows behind their wrappers *)

(** X10.  The exported wrappers of the flows never reject: an exception of
    the flow comes back as an [{ error }] value.  So when the flow throws
    with the message [m], the task ends failed with the prefix of the
    wrapper before [m]: 'Failed to get a response from the AI. ' for a
    classification, 'Failed to get an answer from the AI. ' for a
    question. *)
Theorem thrown_flow_error_is_prefixed env userId (td : TaskData) w taskId
    (classifyDocumentFlow : Json → Promise ClassifyDocumentOutput)
    (askDocumentQuestionFlow : Json → Promise AskDocumentQuestionOutput) m :
  classifyDocument env = Flows.classifyDocument classifyDocumentFlow →
  askDocumentQuestion env = Flows.askDocumentQuestion askDocumentQuestionFlow →
  falsy userId = false →
  fst (add_task env userId (pending_doc env td) w) = Returned taskId →
  tasks_update env userId taskId set_processing = Fulfilled tt →
  let final := tasks (db (snd (submit env userId (Some td) w))) !! (userId, taskId) in
  (∀ input e, classifyDocument env input ≠ Rejected e)
  ∧ (∀ input e, askDocumentQuestion env input ≠ Rejected e)
  ∧ (td_type td = "classifyDocument" →
     classifyDocumentFlow (td_payload td) = Rejected m →
     tasks_update env userId taskId
       (set_failed ("Failed to get a response from the AI. " +:+ m)) = Fulfilled tt →
     ends_failed final ("Failed to get a response from the AI. " +:+ m))
  ∧ (td_type td = "askQuestion" →
     askDocumentQuestionFlow (td_payload td) = Rejected m →
     tasks_update env userId taskId
       (set_failed ("Failed to get an answer from the AI. " +:+ m)) = Fulfilled tt →
     ends_failed final ("Failed to get an answer from the AI. " +:+ m)).
Proof.
  intros Hclassify Hask Hu Hadd Hp final.
  destruct (submit_started env userId td w taskId Hu Hadd) as [Hd Hsubmit].
  split_and!.
  - intros input e. rewrite Hclassify. unfold Flows.classifyDocument, Flows.caught.
    by destruct (classifyDocumentFlow input).
  - intros input e. rewrite Hask. unfold Flows.askDocumentQuestion, Flows.caught.
    by destruct (askDocumentQuestionFlow input).
  - intros Htype Hflow Hf. unfold final. rewrite Hsubmit, Htype. simpl.
    rewrite (classify_failed env userId taskId _ _ _
               ("Failed to get a response from the AI. " +:+ m) Hd Hp); [by eexists| |done].
    rewrite Hclassify. unfold Flows.classifyDocument, Flows.caught. by rewrite Hflow.
  - intros Htype Hflow Hf. unfold final. rewrite Hsubmit, Htype. simpl.
    rewrite (ask_failed env userId taskId _ _ _
               ("Failed to get an answer from the AI. " +:+ m) Hd Hp); [by eexists| |done].
    rewrite Hask. unfold Flows.askDocumentQuestion, Flows.caught. by rewrite Hflow.
Qed.

End TaskProperties.

(** * Further properties of the hook, and of the hook with its caller *)
Section ObserverProperties.

Import UseTask.

Context `{JsNumber number}.
Context {Timestamp DocumentAnalysis AskDocumentQuestionOutput : Type}.

Abbreviation HookState :=
  (@UseTask.State number Timestamp DocumentAnalysis AskDocumentQuestionOutput).
Abbreviation HookEvent :=
  (@UseTask.Event number Timestamp DocumentAnalysis AskDocumentQuestionOutput).
Abbreviation TaskDoc :=
  (@Actions.TaskDoc number Timestamp DocumentAnalysis AskDocumentQuestionOutput).
Abbreviation Call :=
  (@Actions.Call number Timestamp DocumentAnalysis AskDocumentQuestionOutput).
Abbreviation Page :=
  (@VerifierPage.State number DocumentAnalysis AskDocumentQuestionOutput).

Implicit Types (s : HookState) (evs : list HookEvent) (docs : list TaskDoc).

(** ** Delivery *)

Lemma run_step s ev evs : run s (ev :: evs) = run (deliver s ev) evs.
Proof. done. Qed.

Lemma run_unattached s evs : listening s = None → run s evs = s.
Proof.
  intros Hs. induction evs as [|ev evs IH]; [done|].
  rewrite run_step. replace (deliver s ev) with s; [done|].
  unfold deliver. by rewrite Hs.
Qed.

(** What a run over revisions does to the calls of [onUpdate], the
    listener, the loading flag and the error. *)
Lemma run_revisions s path docs :
  listening s = Some path →
  updates (run s (revisions docs)) = updates s ++ upto_terminal docs
  ∧ listening (run s (revisions docs)) = (if existsb finished docs then None else Some path)
  ∧ isLoading (run s (revisions docs)) = (if existsb finished docs then false else isLoading s)
  ∧ error (run s (revisions docs)) = error s.
Proof.
  revert s. induction docs as [|d docs IH]; intros s Hs.
  { simpl. by rewrite app_nil_r. }
  simpl revisions. simpl upto_terminal. simpl existsb. rewrite run_step.
  assert (deliver s (Snapshot (Some d)) = onNext (Some d) s) as ->
    by (unfold deliver; by rewrite Hs).
  unfold onNext.
  destruct (finished d) eqn:Hd; simpl orb.
  - by rewrite run_unattached.
  - destruct (IH (onUpdate d (setTask (Some d) s)) Hs) as (Hu & Hl & Hi & He).
    simpl in *. by rewrite Hu, Hl, Hi, He, <- app_assoc.
Qed.

(** X11.  While the listener is attached, every revision it is sent is
    passed to [onUpdate] in the order it was sent, up to and including
    the first terminal one; that one detaches the listener and ends the
    loading state, and [task] holds the last revision delivered. *)
Theorem updates_follow_the_revisions s path docs :
  listening s = Some path →
  let s' := run s (revisions docs) in
  updates s' = updates s ++ upto_terminal docs
  ∧ listening s' = (if existsb finished docs then None else Some path)
  ∧ isLoading s' = (if existsb finished docs then false else isLoading s)
  ∧ task s' = (match last (upto_terminal docs) with Some d => Some d | None => task s end)
  ∧ error s' = error s.
Proof.
  revert s. induction docs as [|d docs IH]; intros s Hs; cbv zeta.
  { simpl. by rewrite app_nil_r. }
  simpl revisions. simpl upto_terminal. simpl existsb. rewrite run_step.
  assert (deliver s (Snapshot (Some d)) = onNext (Some d) s) as ->
    by (unfold deliver; by rewrite Hs).
  unfold onNext.
  destruct (finished d) eqn:Hd; simpl orb.
  - rewrite run_unattached by done. done.
  - destruct (IH (onUpdate d (setTask (Some d) s)) Hs) as (Hu & Hl & Hi & Ht & He).
    simpl in *. rewrite Hu, Hl, Hi, Ht, He, <- app_assoc. split_and!; try done.
    rewrite last_cons. by destruct (last (upto_terminal docs)).
Qed.

(** X12.  When the first snapshot finds no record and the record appears
    later, its revisions are still delivered, but the hook keeps the error
    'Task not found.' and stays out of the loading state for the rest of
    the subscription. *)
Theorem late_record_keeps_the_error s path docs :
  listening s = Some path →
  let s' := run s (Snapshot None :: revisions docs) in
  updates s' = updates s ++ upto_terminal docs
  ∧ error s' = Some "Task not found."
  ∧ isLoading s' = false.
Proof.
  intros Hs s'. unfold s'. rewrite run_step.
  assert (deliver s (Snapshot None) = setIsLoading false (setError (Some "Task not found.") s))
    as -> by (unfold deliver; by rewrite Hs).
  destruct (run_revisions
              (setIsLoading false (setError (Some "Task not found.") s)) path docs Hs)
    as (Hu & _ & Hi & He).
  rewrite Hu, Hi, He. split_and!; try done. by destruct (existsb finished docs).
Qed.

(** X13.  Without a task id, or without a user, the effect attaches no
    listener: whatever is sent, the hook stays with no task and not
    loading, and keeps the error it had.  The same holds after the cleanup
    of the effect: nothing sent later reaches the callbacks. *)
Theorem nothing_is_delivered_without_a_listener s (taskId : option string)
    (user : option User) evs :
  run (cleanup s) evs = cleanup s
  ∧ (listening s = None →
     taskId = None ∨ taskId = Some "" ∨ user = None →
     run (effect taskId user s) evs = setTask None (setIsLoading false s)).
Proof.
  split; [by apply run_unattached|].
  intros Hs Hno.
  assert (effect taskId user s = setTask None (setIsLoading false s)) as ->.
  { unfold effect. destruct Hno as [-> | [-> | ->]]; [done| |by destruct taskId].
    by destruct user. }
  by apply run_unattached.
Qed.

(** ** The task, its observer and the page *)

Lemma trail_upto_terminal (d0 : TaskDoc) ds :
  Actions.status d0 = "pending" → trail d0 ds → upto_terminal (d0 :: ds) = d0 :: ds.
Proof.
  intros Hp Htrail. simpl. unfold finished at 1. rewrite Hp. simpl.
  by destruct Htrail.
Qed.

(** In the log of a session no revision of a task follows a terminal
    one. *)
Lemma session_log_upto_terminal (calls : list Call)
    (past : gmap (string * string) (@Actions.HistoryDoc number Timestamp DocumentAnalysis))
    (bar : list (@Actions.Lawyer number)) k :
  upto_terminal (writes_to k (Actions.writes (Actions.session calls (Actions.start past bar))))
  = writes_to k (Actions.writes (Actions.session calls (Actions.start past bar))).
Proof.
  pose proof (consistent_session calls _ (consistent_start past bar) k) as Hk.
  destruct (Actions.tasks _ !! k) as [d|].
  - destruct Hk as (d0 & ds & Hp & _ & _ & Htrail & -> & _).
    by apply trail_upto_terminal.
  - by rewrite Hk.
Qed.

(** X14.  An observer that is sent the revisions of a task, as a session
    of submissions wrote them, receives every one of them in write order,
    and is detached exactly when the last one is terminal. *)
Theorem observer_sees_every_revision (calls : list Call)
    (past : gmap (string * string) (@Actions.HistoryDoc number Timestamp DocumentAnalysis))
    (bar : list (@Actions.Lawyer number)) k s path :
  listening s = Some path →
  let written := writes_to k (Actions.writes (Actions.session calls (Actions.start past bar))) in
  updates (run s (revisions written)) = updates s ++ written
  ∧ listening (run s (revisions written))
    = (if existsb (fun d => terminal (Actions.status d)) written then None else Some path).
Proof.
  intros Hs written.
  destruct (run_revisions s path written Hs) as (Hu & Hl & _).
  rewrite Hu, Hl. unfold written. by rewrite session_log_upto_terminal.
Qed.

(** X15.  The page reacts to the terminal revision and to nothing else.
    After the updates of a task of any session have been delivered: if
    the task is failed there is exactly one new toast, 'Analysis Failed',
    with the stored [error], and the upload is cleared; if it is completed
    the page shows the stored [result] with the uploaded file and no toast;
    in both cases the current task id is cleared.  If the task is pending
    or processing the page is as it was. *)
Theorem page_reports_the_outcome_once (calls : list Call)
    (past : gmap (string * string) (@Actions.HistoryDoc number Timestamp DocumentAnalysis))
    (bar : list (@Actions.Lawyer number)) k d s path
    (captured : option VerifierPage.UploadedFile) (p : Page) :
  listening s = Some path →
  updates s = [] →
  Actions.tasks (Actions.db (Actions.session calls (Actions.start past bar))) !! k = Some d →
  let written := writes_to k (Actions.writes (Actions.session calls (Actions.start past bar))) in
  let p' := VerifierPage.after captured (updates (run s (revisions written))) p in
  (Actions.status d = "failed" →
   VerifierPage.toasts p'
   = VerifierPage.toasts p
     ++ [ {| VerifierPage.variant := "destructive";
             VerifierPage.title := "Analysis Failed";
             VerifierPage.description := Actions.error d |} ]
   ∧ is_Some (Actions.error d)
   ∧ VerifierPage.uploadedFile p' = None
   ∧ VerifierPage.currentTaskId p' = None
   ∧ VerifierPage.result p' = VerifierPage.result p)
  ∧ (Actions.status d = "completed" →
     VerifierPage.result p' = Some (Actions.result d, captured)
     ∧ is_Some (Actions.result d)
     ∧ VerifierPage.toasts p' = VerifierPage.toasts p
     ∧ VerifierPage.uploadedFile p' = VerifierPage.uploadedFile p
     ∧ VerifierPage.currentTaskId p' = None)
  ∧ (Actions.status d = "pending" ∨ Actions.status d = "processing" → p' = p).
Proof.
  intros Hs Hnone Hd written p'. subst p' written.
  destruct (run_revisions s path
              (writes_to k (Actions.writes (Actions.session calls (Actions.start past bar)))) Hs)
    as (-> & _).
  rewrite Hnone, session_log_upto_terminal. simpl.
  pose proof (consistent_session calls _ (consistent_start past bar) k) as Hk.
  rewrite Hd in Hk.
  destruct Hk as (d0 & ds & Hp & Hr & He & Htrail & -> & Hlast).
  unfold VerifierPage.after.
  destruct Htrail; simpl in Hlast; simplify_eq; simpl;
    unfold VerifierPage.onTaskUpdate; simpl; rewrite ?Hp; simpl;
    (split_and!; [intros Hst | intros Hst | intros [Hst | Hst]]);
    try (rewrite Hp in Hst); try discriminate Hst; try done;
    rewrite ?Hr, ?He; split_and!; by eauto.
Qed.

End ObserverProperties.

(** * Properties of the role-play flow and actions *)
Section RolePlayProperties.

Import Flows.

Implicit Types (messages rest : list ChatMessage) (first : ChatMessage).

Lemma slice_1_m1_middle {A} (x y : A) (l : list A) : slice_1_m1 (x :: l ++ [y]) = l.
Proof.
  unfold slice_1_m1. simpl. rewrite length_app. simpl.
  replace (length l + 1 - 1) with (length l) by lia.
  rewrite drop_0. apply take_app_length.
Qed.

(** The request for a conversation of a system message, the messages
    [between] and a [final] message. *)
Lemma request_of_conversation first (between : list ChatMessage) (final : ChatMessage) :
  role first = system →
  request (first :: between ++ [final])
  = inr {| req_system := content first;
           req_history := toGenkitMessages between;
           req_prompt := Some {| text := content final |} |}.
Proof.
  intros Hrole. unfold request, toGenkitMessages. simpl. rewrite map_app. simpl.
  rewrite Hrole, last_cons, last_snoc. simpl.
  by rewrite slice_1_m1_middle.
Qed.

(** X16.  For a conversation that starts with a system message, the flow
    sends the content of that message as the system prompt, the last
    message as the prompt and the messages between them, converted in
    order, as the history.  When the system message is the only one, it is
    the last one too: the history is empty and the system text is sent
    again as the prompt. *)
Theorem request_splits_the_conversation first rest :
  role first = system →
  ∃ req,
    request (first :: rest) = inr req
    ∧ req_system req = content first
    ∧ (rest = [] →
       req_history req = [] ∧ req_prompt req = Some {| text := content first |})
    ∧ (∀ between final,
         rest = between ++ [final] →
         req_history req = toGenkitMessages between
         ∧ req_prompt req = Some {| text := content final |}).
Proof.
  intros Hrole. destruct rest as [|second rest] using rev_ind.
  - eexists. unfold request. simpl. rewrite Hrole. split; [done|]. simpl.
    split; [done|]. split; [done|]. intros between final Hrest.
    by destruct between.
  - eexists. rewrite request_of_conversation by done. split; [done|]. simpl.
    split; [done|]. split; [intros Hrest; by destruct rest|].
    intros between final Hrest. by apply app_inj_tail in Hrest as [-> ->].
Qed.

(** X17.  The history the simulator page builds always passes the guard of
    the flow: the model is called exactly once, with the page's system
    prompt, the earlier messages as history and the new message of the
    user as prompt.  The action resolves to the text of the model, or to
    an [{ error }] that starts with 'Failed to continue role play. '. *)
Theorem page_history_reaches_the_model (generate : GenerateRequest → Promise (option string))
    (systemPrompt : string) messages (userMessage : ChatMessage) :
  let req := {| req_system := systemPrompt;
                req_history := toGenkitMessages messages;
                req_prompt := Some {| text := content userMessage |} |} in
  let outcome :=
    RolePlay.continue_with generate
      (Some (RolePlay.fullChatHistory systemPrompt messages userMessage)) in
  snd outcome = [req]
  ∧ fst outcome
    = match generate req with
      | Fulfilled (Some output) =>
          if Actions.falsy output
          then Fulfilled (ErrorValue
                 ("Failed to continue role play. " +:+
                  "The AI failed to generate a response. This may be due to the content filter."))
          else Fulfilled (Value output)
      | Fulfilled None =>
          Fulfilled (ErrorValue
            ("Failed to continue role play. " +:+
             "The AI failed to generate a response. This may be due to the content filter."))
      | Rejected m => Fulfilled (ErrorValue ("Failed to continue role play. " +:+ m))
      | Forever => Forever
      end.
Proof.
  intros req outcome.
  pose proof (request_of_conversation {| role := system; content := systemPrompt |}
                messages userMessage eq_refl) as Hreq.
  simpl in Hreq. fold req in Hreq.
  unfold outcome, RolePlay.continue_with, RolePlay.continueExistingRolePlay,
    RolePlay.fullChatHistory, continueRolePlay, caught, continueRolePlayFlow.
  rewrite Hreq. simpl.
  destruct (generate req) as [[output|]|m|]; simpl; try done.
  by destruct (Actions.falsy output).
Qed.

(** X18.  [continueExistingRolePlay] over the flow never rejects and calls
    the model at most once.  Without messages it answers 'Conversation
    history is required.'; when the first message is not a system message
    it answers 'Failed to continue role play. Conversation must start with
    a system message.'; in both cases the model is not called. *)
Theorem bad_conversation_is_refused (generate : GenerateRequest → Promise (option string))
    (messages : option (list ChatMessage)) :
  let outcome := RolePlay.continue_with generate messages in
  (∀ e, fst outcome ≠ Rejected e)
  ∧ length (snd outcome) ≤ 1
  ∧ (messages = None ∨ messages = Some [] →
     outcome = (Fulfilled (ErrorValue "Conversation history is required."), []))
  ∧ (∀ first rest,
       messages = Some (first :: rest) →
       role first ≠ system →
       outcome
       = (Fulfilled (ErrorValue
            "Failed to continue role play. Conversation must start with a system message."),
          [])).
Proof.
  intros outcome. unfold outcome, RolePlay.continue_with, RolePlay.continueExistingRolePlay,
    continueRolePlay, caught, continueRolePlayFlow.
  split_and!.
  - intros e. destruct messages as [[|first rest]|]; simpl; try done.
    destruct (request (first :: rest)) as [m|req]; simpl; [done|].
    destruct (generate req) as [[output|]|m|]; simpl; try done.
    by destruct (Actions.falsy output).
  - destruct messages as [[|first rest]|]; simpl; try lia.
    destruct (request (first :: rest)) as [m|req]; simpl; [lia|].
    destruct (generate req) as [[output|]|m|]; simpl; try lia.
    destruct (Actions.falsy output); simpl; lia.
  - by intros [-> | ->].
  - intros first rest -> Hrole. unfold request. simpl.
    by destruct (role first).
Qed.

End RolePlayProperties.

Section SessionProperties.

Import RolePlay.

Context {Timestamp : Type}.

Abbreviation StageEnv := (@RolePlay.Env Timestamp).
Abbreviation Sessions := (gmap (string * string) (@RolePlay.Session Timestamp)).

Implicit Types (env : StageEnv) (sessions : Sessions) (input : Input).

(** X19.  [startNewRolePlay] stores a session exactly when it returns a
    session id: then the flow produced the result that is returned, and
    one session, made of the input, that result and the server time, is
    added under the returned id, which was free.  In every other case the
    store is as it was; and with an empty role, scenario or user id the
    flow is not even called. *)
Theorem session_is_stored_iff_started env input sessions :
  let '(outcome, sessions', called) := startNewRolePlay env input sessions in
  match outcome with
  | Fulfilled (Session_started result sessionId) =>
      startRolePlay env input = Fulfilled (Value result)
      ∧ sessions !! (userId input, sessionId) = None
      ∧ sessions'
        = <[(userId input, sessionId) :=
              {| s_role := role input;
                 s_scenario := scenario input;
                 s_userId := userId input;
                 s_initialResponse := initialResponse result;
                 s_conversationSummary := conversationSummary result;
                 s_createdAt := serverTimestamp env |}]> sessions
  | _ => sessions' = sessions
  end
  ∧ (role input = "" ∨ scenario input = "" ∨ userId input = "" →
     called = false
     ∧ outcome = Fulfilled (Start_error "Role, scenario, and user ID are required.")).
Proof.
  unfold startNewRolePlay.
  destruct (Actions.falsy (scenario input)) eqn:Hs; simpl.
  { split; [done|]. done. }
  destruct (Actions.falsy (role input)) eqn:Hr; simpl.
  { split; [done|]. done. }
  destruct (Actions.falsy (userId input)) eqn:Hu; simpl.
  { split; [done|]. done. }
  assert (¬ (role input = "" ∨ scenario input = "" ∨ userId input = "")) as Hvalid.
  { unfold Actions.falsy in *. apply String.eqb_neq in Hs, Hr, Hu. tauto. }
  destruct (startRolePlay env input) as [[result|e]|e|] eqn:Hflow; simpl; try done.
  destruct (sessions_add env (userId input) _) as [sessionId|e|]; simpl; try done.
  by destruct (sessions !! (userId input, sessionId)) eqn:Hfree; simpl.
Qed.

Lemma started_session env input sessions result sessionId sessions' called :
  startNewRolePlay env input sessions
    = (Fulfilled (Session_started result sessionId), sessions', called) →
  userId input ≠ ""
  ∧ sessions !! (userId input, sessionId) = None
  ∧ ∃ session, sessions' = <[(userId input, sessionId) := session]> sessions.
Proof.
  unfold startNewRolePlay.
  destruct (Actions.falsy (scenario input)); simpl; [done|].
  destruct (Actions.falsy (role input)); simpl; [done|].
  destruct (Actions.falsy (userId input)) eqn:Hu; simpl; [done|].
  apply String.eqb_neq in Hu.
  destruct (startRolePlay env input) as [[r|e]|e|]; simpl; try done.
  destruct (sessions_add env (userId input) _) as [sid|e|]; simpl; try done.
  destruct (sessions !! (userId input, sid)) eqn:Hfree; simpl; [done|].
  intros [= <- <- <- <-]. split_and!; by eauto.
Qed.

(** X20.  Deleting the session that [startNewRolePlay] has just stored
    brings the store back to what it was before the start. *)
Theorem start_then_delete_restores_the_store env input sessions result sessionId sessions' called :
  startNewRolePlay env input sessions
    = (Fulfilled (Session_started result sessionId), sessions', called) →
  sessionId ≠ "" →
  sessions_delete env (userId input) sessionId = Fulfilled tt →
  deleteRolePlaySession env (userId input) sessionId sessions' = (Fulfilled Success, sessions).
Proof.
  intros Hstart Hid Hdelete.
  destruct (started_session _ _ _ _ _ _ _ Hstart) as (Hu & Hfree & session & ->).
  unfold deleteRolePlaySession, Actions.falsy.
  apply String.eqb_neq in Hu, Hid. rewrite Hu, Hid. simpl. rewrite Hdelete.
  by rewrite delete_insert_id.
Qed.

(** X21.  [deleteRolePlaySession] reports success whether or not the
    session exists: deleting a session that is not there changes nothing,
    deleting twice is deleting once, and no other session is touched. *)
Theorem delete_is_idempotent env user sessionId sessions :
  user ≠ "" →
  sessionId ≠ "" →
  sessions_delete env user sessionId = Fulfilled tt →
  let outcome := deleteRolePlaySession env user sessionId sessions in
  fst outcome = Fulfilled Success
  ∧ snd outcome !! (user, sessionId) = None
  ∧ (∀ k, k ≠ (user, sessionId) → snd outcome !! k = sessions !! k)
  ∧ (sessions !! (user, sessionId) = None → snd outcome = sessions)
  ∧ deleteRolePlaySession env user sessionId (snd outcome) = outcome.
Proof.
  intros Hu Hid Hdelete outcome.
  unfold outcome, deleteRolePlaySession, Actions.falsy.
  apply String.eqb_neq in Hu, Hid. rewrite Hu, Hid. simpl. rewrite Hdelete. simpl.
  split_and!.
  - done.
  - apply lookup_delete_eq.
  - intros k Hk. by apply lookup_delete_ne.
  - apply delete_id.
  - by rewrite delete_delete_eq.
Qed.

End SessionProperties.

(** * Properties of the sign-in and of the case log *)
Section AuthProperties.

Import Auth.

Context {Date : Type}.

Abbreviation AuthEnv := (@Auth.Env Date).
Abbreviation Users := (gmap string (@Auth.UserDoc Date)).

Implicit Types (env : AuthEnv) (users : Users) (u : User).

Lemma failed_update_changes_nothing env u users :
  fst (updateUserInFirestore env u users) ≠ Fulfilled tt →
  snd (updateUserInFirestore env u users) = users.
Proof.
  unfold updateUserInFirestore.
  destruct (getDoc env (uid u)) as [[]|e|]; simpl; [|done..].
  by destruct (users !! uid u), (setDoc env (uid u)) as [[]|e|].
Qed.

(** X22.  Signing in never changes the role of a user who has a document:
    the update keeps [role], [createdAt], [about] and [updatedAt] and
    replaces only the e-mail, the name and the photo.  A user without a
    document gets one with the role 'user'.  No other user's document is
    touched, and a failed update leaves the store as it was. *)
Theorem sign_in_keeps_the_role env u users :
  let outcome := updateUserInFirestore env u users in
  (∀ other, other ≠ uid u → snd outcome !! other = users !! other)
  ∧ (fst outcome ≠ Fulfilled tt → snd outcome = users)
  ∧ (fst outcome = Fulfilled tt →
     ∃ d', snd outcome !! uid u = Some d'
           ∧ d_email d' = email u
           ∧ d_displayName d' = displayName u
           ∧ d_photoURL d' = photoURL u
           ∧ match users !! uid u with
             | Some d =>
                 d_role d' = d_role d
                 ∧ d_createdAt d' = d_createdAt d
                 ∧ d_about d' = d_about d
                 ∧ d_updatedAt d' = d_updatedAt d
             | None => d_role d' = Some "user" ∧ d_createdAt d' = Some (now env)
             end).
Proof.
  intros outcome. unfold outcome, updateUserInFirestore.
  destruct (getDoc env (uid u)) as [[]|e|]; simpl; [|done..].
  destruct (users !! uid u) as [d|] eqn:Hd;
    destruct (setDoc env (uid u)) as [[]|e|]; simpl; try done.
  - split_and!; [intros other Hne; by rewrite lookup_insert_ne|done|].
    intros _. eexists. rewrite lookup_insert_eq. by split_and!.
  - split_and!; [intros other Hne; by rewrite lookup_insert_ne|done|].
    intros _. eexists. rewrite lookup_insert_eq. by split_and!.
Qed.

(** X23.  When the update of the profile does not succeed, the callback of
    [onAuthStateChanged] sets neither the user nor the loading flag and
    the store is as it was.  If no user was set before, [useTask] sees no
    user either and attaches no listener, whatever the task id. *)
Theorem failed_sign_in_leaves_no_observer
    {number Timestamp DocumentAnalysis AskDocumentQuestionOutput : Type}
    env u (s : Auth.State) users (taskId : option string)
    (evs : list (@UseTask.Event number Timestamp DocumentAnalysis AskDocumentQuestionOutput)) :
  fst (updateUserInFirestore env u users) ≠ Fulfilled tt →
  user s = None →
  onAuthStateChanged env (Some u) s users = (s, users)
  ∧ UseTask.run (UseTask.effect taskId (hook_user (fst (onAuthStateChanged env (Some u) s users)))
                   UseTask.initial) evs
    = UseTask.setTask None (UseTask.setIsLoading false UseTask.initial).
Proof.
  intros Hfail Hnone.
  pose proof (failed_update_changes_nothing env u users Hfail) as Hsame.
  assert (onAuthStateChanged env (Some u) s users = (s, users)) as Hstate.
  { unfold onAuthStateChanged.
    destruct (updateUserInFirestore env u users) as [[[]|e|] users']; simpl in *;
      by subst. }
  split; [done|]. rewrite Hstate. unfold hook_user. simpl. rewrite Hnone. simpl.
  replace (UseTask.effect taskId None UseTask.initial)
    with (UseTask.setTask None (UseTask.setIsLoading false
            (UseTask.initial : @UseTask.State number Timestamp DocumentAnalysis
                                 AskDocumentQuestionOutput)))
    by (by destruct taskId).
  induction evs as [|ev evs IH]; [done|]. exact IH.
Qed.

End AuthProperties.

Section CaseLogProperties.

Import CaseLog.

Context {Timestamp : Type}.

Abbreviation LogEnv := (@CaseLog.Env Timestamp).
Abbreviation LogStore := (@CaseLog.Store Timestamp).

Implicit Types (env : LogEnv) (store : LogStore).

(** X24.  [addCaseLogEntry] is not atomic: when the entry is added and the
    update of the case then fails, because the case does not exist or
    because the store rejects the update, the call resolves to an error
    and the entry stays in the store. *)
Theorem entry_outlives_failed_update env userId caseId text store entryId :
  userId ≠ "" → caseId ≠ "" → text ≠ "" →
  entries_add env userId caseId {| entry := text; e_createdAt := serverTimestamp env |}
    = Fulfilled entryId →
  entries store !! (userId, caseId, entryId) = None →
  cases store !! (userId, caseId) = None ∨ (∃ m, cases_update env userId caseId = Rejected m) →
  let outcome := addCaseLogEntry env userId caseId text store in
  (∃ m, fst outcome = Fulfilled (Error m))
  ∧ entries (snd outcome) !! (userId, caseId, entryId)
    = Some {| entry := text; e_createdAt := serverTimestamp env |}
  ∧ cases (snd outcome) = cases store.
Proof.
  intros Hu Hc Ht Hadd Hfresh Hfail outcome.
  unfold outcome, addCaseLogEntry, Actions.falsy.
  apply String.eqb_neq in Hu, Hc, Ht. rewrite Hu, Hc, Ht. simpl.
  rewrite Hadd, Hfresh. simpl.
  destruct (cases store !! (userId, caseId)) as [c|] eqn:Hcase; simpl.
  - destruct Hfail as [Hfail | [m Hfail]]; [done|]. rewrite Hfail. simpl.
    rewrite lookup_insert_eq. split_and!; by eauto.
  - rewrite lookup_insert_eq. split_and!; by eauto.
Qed.

(** X25.  [addCaseLogEntry] never rejects.  It resolves to success only
    when the case exists: then exactly the entry with the given text is
    added and only [updatedAt] of the case changes, to the server time.
    With an empty user id, case id or text nothing is written. *)
Theorem entry_added_on_success env userId caseId text store :
  let outcome := addCaseLogEntry env userId caseId text store in
  (∀ m, fst outcome ≠ Rejected m)
  ∧ (userId = "" ∨ caseId = "" ∨ text = "" →
     outcome = (Fulfilled (Error "User ID, Case ID, and entry text are required."), store))
  ∧ (fst outcome = Fulfilled Success →
     ∃ c entryId,
       cases store !! (userId, caseId) = Some c
       ∧ entries store !! (userId, caseId, entryId) = None
       ∧ entries (snd outcome)
         = <[(userId, caseId, entryId) :=
               {| entry := text; e_createdAt := serverTimestamp env |}]> (entries store)
       ∧ cases (snd outcome)
         = <[(userId, caseId) :=
               {| caseName := caseName c;
                  clientName := clientName c;
                  caseNumber := caseNumber c;
                  createdAt := createdAt c;
                  updatedAt := serverTimestamp env |}]> (cases store)).
Proof.
  intros outcome. unfold outcome, addCaseLogEntry.
  destruct (Actions.falsy userId) eqn:Hu; simpl; [by split_and!|].
  destruct (Actions.falsy caseId) eqn:Hc; simpl; [by split_and!|].
  destruct (Actions.falsy text) eqn:Ht; simpl; [by split_and!|].
  assert (¬ (userId = "" ∨ caseId = "" ∨ text = "")) as Hvalid.
  { unfold Actions.falsy in *. apply String.eqb_neq in Hu, Hc, Ht. tauto. }
  destruct (entries_add env userId caseId _) as [entryId|m|]; simpl; [|by split_and!..].
  destruct (entries store !! (userId, caseId, entryId)) eqn:Hfresh; simpl; [by split_and!|].
  destruct (cases store !! (userId, caseId)) as [c|] eqn:Hcase; simpl; [|by split_and!].
  destruct (cases_update env userId caseId) as [[]|m|]; simpl; [|by split_and!..].
  split_and!; [done|done|]. intros _. by exists c, entryId.
Qed.

End CaseLogProperties.

(** * The further properties at concrete inputs *)
Section MoreInstances.

Import Actions Example Sample.

Lemma submissions_stay_with_their_owner_witness :
  tasks (db (session two_calls empty_world)) !! ("u2", "t1") = None
  ∧ writes_to ("u2", "t1") (writes (session two_calls empty_world)) = [].
Proof.
  apply (submissions_stay_with_their_owner two_calls empty_world "u2" "t1").
  repeat constructor; discriminate.
Defined.

Lemma rejected_processing_skips_the_flow_witness :
  invoked (snd (submit processing_rejected "u1" (Some ask_data) empty_world)) = []
  ∧ ends_failed
      (tasks (db (snd (submit processing_rejected "u1" (Some ask_data) empty_world)))
         !! ("u1", "t1"))
      "UNAVAILABLE".
Proof.
  destruct (rejected_processing_skips_the_flow processing_rejected "u1" ask_data empty_world
              "t1" "UNAVAILABLE")
    as (Hcalls & _ & Hfailed & _);
    [reflexivity | vm_compute; reflexivity | right; reflexivity | reflexivity | reflexivity |].
  split; [exact Hcalls | exact Hfailed].
Defined.

Lemma unsettled_flow_leaves_task_processing_witness :
  fst (submit hanging "u1" (Some ask_data) empty_world) = Returned (TaskId "t1")
  ∧ tasks (db (snd (submit hanging "u1" (Some ask_data) empty_world))) !! ("u1", "t1")
    = Some (merge (pending_doc hanging ask_data) set_processing).
Proof.
  destruct (unsettled_flow_leaves_task_processing hanging "u1" ask_data empty_world "t1")
    as (Hresponse & Hstuck & _);
    [reflexivity | vm_compute; reflexivity | reflexivity | right; split; reflexivity |].
  split; [exact Hresponse | exact Hstuck].
Defined.

Lemma unrecorded_failure_leaves_task_processing_witness :
  fst (submit failed_rejected "u1" (Some ask_data) empty_world) = Returned (TaskId "t1")
  ∧ tasks (db (snd (submit failed_rejected "u1" (Some ask_data) empty_world))) !! ("u1", "t1")
    = Some (merge (pending_doc failed_rejected ask_data) set_processing).
Proof.
  destruct (unrecorded_failure_leaves_task_processing failed_rejected "u1" ask_data empty_world
              "t1" "disk full" "UNAVAILABLE")
    as (Hresponse & Hstuck & _);
    [reflexivity | vm_compute; reflexivity | reflexivity | right; split; reflexivity
    | reflexivity |].
  split; [exact Hresponse | exact Hstuck].
Defined.

Lemma rejected_lawyer_query_fails_task_witness :
  ends_failed
    (tasks (db (snd (submit lawyers_rejected "u1" (Some classify_data) empty_world)))
       !! ("u1", "t1"))
    "DEADLINE_EXCEEDED"
  ∧ history (db (snd (submit lawyers_rejected "u1" (Some classify_data) empty_world))) = ∅.
Proof.
  apply (rejected_lawyer_query_fails_task lawyers_rejected "u1" classify_data empty_world "t1"
           the_analysis "DEADLINE_EXCEEDED");
    first [reflexivity | vm_compute; reflexivity].
Defined.

Lemma recommended_lawyers_match_witness :
  length (filter (fun l => specialty l = "Tenant Law") bar) ≤ 3
  ∧ Forall (fun l => specialty l = lawyerCategory the_analysis)
           (filter (fun l => specialty l = "Tenant Law") bar).
Proof.
  destruct (recommended_lawyers_match reliable the_analysis empty_world
              (filter (fun l => specialty l = "Tenant Law") bar) "₹1500 - ₹6000" empty_world)
    as (_ & Hlen & Hall & _); [vm_compute; reflexivity|].
  split; [exact Hlen | exact Hall].
Defined.

Lemma completed_analysis_is_saved_witness :
  history (db (snd (submit reliable "u1" (Some classify_data) empty_world)))
  = {[ ("u1", "h1") :=
         {| h_result := full_result the_analysis bar;
            h_fileName := JStr "lease.pdf";
            h_fileAsBase64 := JStr "JVBERi0=";
            h_mimeType := JStr "application/pdf";
            h_createdAt := serverTimestamp reliable |} ]}.
Proof.
  destruct (completed_analysis_is_saved reliable "u1" classify_data empty_world "t1"
              the_analysis (JStr "lease.pdf") (JStr "JVBERi0=") (JStr "application/pdf") "h1")
    as [Hsaved _];
    [first [reflexivity | vm_compute; reflexivity | intros; reflexivity] .. |].
  rewrite Hsaved. reflexivity.
Defined.


Lemma thrown_flow_error_is_prefixed_witness :
  ends_failed
    (tasks (db (snd (submit wrapped "u1" (Some ask_data) empty_world))) !! ("u1", "t1"))
    "Failed to get an answer from the AI. disk full".
Proof.
  destruct (thrown_flow_error_is_prefixed wrapped "u1" ask_data empty_world "t1"
              (fun _ => Rejected "disk full") (fun _ => Rejected "disk full") "disk full")
    as (_ & _ & _ & Hask);
    [reflexivity | reflexivity | reflexivity | vm_compute; reflexivity | reflexivity |].
  apply Hask; reflexivity.
Defined.

Lemma updates_follow_the_revisions_witness :
  UseTask.updates (UseTask.run mounted (revisions (failing ++ failing))) = failing
  ∧ UseTask.listening (UseTask.run mounted (revisions (failing ++ failing))) = None
  ∧ UseTask.isLoading (UseTask.run mounted (revisions (failing ++ failing))) = false.
Proof.
  destruct (updates_follow_the_revisions mounted ("u1", "t1") (failing ++ failing))
    as (Hupdates & Hdetached & Hloading & _); [reflexivity|].
  split; [exact Hupdates|]. split; [exact Hdetached | exact Hloading].
Defined.

Lemma late_record_keeps_the_error_witness :
  UseTask.updates (UseTask.run mounted (UseTask.Snapshot None :: revisions failing)) = failing
  ∧ UseTask.error (UseTask.run mounted (UseTask.Snapshot None :: revisions failing))
    = Some "Task not found."
  ∧ UseTask.isLoading (UseTask.run mounted (UseTask.Snapshot None :: revisions failing)) = false.
Proof.
  apply (late_record_keeps_the_error mounted ("u1", "t1") failing). reflexivity.
Defined.

Lemma observer_sees_every_revision_witness :
  UseTask.updates
    (UseTask.run mounted
       (revisions (writes_to ("u1", "t2") (writes (session two_calls (start ∅ bar))))))
  = writes_to ("u1", "t2") (writes (session two_calls (start ∅ bar))).
Proof.
  destruct (observer_sees_every_revision two_calls ∅ bar ("u1", "t2") mounted ("u1", "t1"))
    as [Hupdates _]; [reflexivity|].
  exact Hupdates.
Defined.

Lemma page_reports_the_outcome_once_witness :
  VerifierPage.toasts
    (VerifierPage.after (Some lease)
       (UseTask.updates
          (UseTask.run mounted
             (revisions (writes_to ("u1", "t2") (writes (session two_calls (start ∅ bar)))))))
       waiting)
  = [ {| VerifierPage.variant := "destructive";
         VerifierPage.title := "Analysis Failed";
         VerifierPage.description := Some "disk full" |} ].
Proof.
  destruct (page_reports_the_outcome_once two_calls ∅ bar ("u1", "t2")
              (merge (merge (pending_doc reliable ask_data) set_processing)
                     (set_failed "disk full"))
              mounted ("u1", "t1") (Some lease) waiting)
    as [Hfailed _]; [reflexivity | reflexivity | vm_compute; reflexivity |].
  destruct (Hfailed eq_refl) as [Htoasts _]. exact Htoasts.
Defined.

Lemma request_splits_the_conversation_witness :
  ∃ req,
    Flows.request (RolePlay.fullChatHistory "You are an actor." so_far reply) = inr req
    ∧ Flows.req_system req = "You are an actor."
    ∧ Flows.req_history req = Flows.toGenkitMessages so_far
    ∧ Flows.req_prompt req = Some {| Flows.text := "I want my deposit back." |}.
Proof.
  destruct (request_splits_the_conversation
              {| Flows.role := Flows.system; Flows.content := "You are an actor." |}
              (so_far ++ [reply]) eq_refl)
    as (req & Hreq & Hsystem & _ & Hsplit).
  destruct (Hsplit so_far reply eq_refl) as [Hhistory Hprompt].
  exists req. split; [exact Hreq|]. split; [exact Hsystem|]. split; [exact Hhistory|exact Hprompt].
Defined.

Lemma start_then_delete_restores_the_store_witness :
  RolePlay.deleteRolePlaySession stage "u1" "s1"
    (snd (fst (RolePlay.startNewRolePlay stage tenant ∅)))
  = (Fulfilled RolePlay.Success, ∅).
Proof.
  apply (start_then_delete_restores_the_store stage tenant ∅
           {| RolePlay.initialResponse := "Please be seated.";
              RolePlay.conversationSummary := "A tenant disputes a deposit." |}
           "s1" _ true).
  - reflexivity.
  - discriminate.
  - reflexivity.
Defined.

Lemma delete_is_idempotent_witness :
  fst (RolePlay.deleteRolePlaySession stage "u1" "s9"
         (snd (fst (RolePlay.startNewRolePlay stage tenant ∅))))
  = Fulfilled RolePlay.Success
  ∧ snd (RolePlay.deleteRolePlaySession stage "u1" "s9"
           (snd (fst (RolePlay.startNewRolePlay stage tenant ∅))))
    = snd (fst (RolePlay.startNewRolePlay stage tenant ∅)).
Proof.
  destruct (delete_is_idempotent stage "u1" "s9"
              (snd (fst (RolePlay.startNewRolePlay stage tenant ∅))))
    as (Hsuccess & _ & _ & Hmissing & _); [discriminate | discriminate | reflexivity |].
  split; [exact Hsuccess|]. apply Hmissing. vm_compute. reflexivity.
Defined.

(** The role-play action over a model that repeats its prompt. *)
Lemma role_play_sample :
  RolePlay.continue_with parrot (Some (RolePlay.fullChatHistory "You are an actor." so_far reply))
  = (Fulfilled (Value "I want my deposit back."),
     [ {| Flows.req_system := "You are an actor.";
          Flows.req_history := Flows.toGenkitMessages so_far;
          Flows.req_prompt := Some {| Flows.text := "I want my deposit back." |} |} ])
  ∧ RolePlay.continue_with parrot
      (Some [ {| Flows.role := Flows.system; Flows.content := "You are an actor." |} ])
    = (Fulfilled (Value "You are an actor."),
       [ {| Flows.req_system := "You are an actor.";
            Flows.req_history := [];
            Flows.req_prompt := Some {| Flows.text := "You are an actor." |} |} ])
  ∧ RolePlay.continue_with parrot (Some [reply])
    = (Fulfilled (ErrorValue
         "Failed to continue role play. Conversation must start with a system message."), []).
Proof. repeat split. Qed.

End MoreInstances.

Section LastInstances.

Import Example Sample.

Lemma failed_sign_in_leaves_no_observer_witness :
  Auth.onAuthStateChanged offline (Some visitor) signed_out ∅ = (signed_out, ∅)
  ∧ UseTask.run
      (UseTask.effect (Some "t1")
         (Auth.hook_user (fst (Auth.onAuthStateChanged offline (Some visitor) signed_out ∅)))
         UseTask.initial)
      (revisions failing)
    = UseTask.setTask None (UseTask.setIsLoading false UseTask.initial).
Proof.
  apply (failed_sign_in_leaves_no_observer offline visitor signed_out ∅ (Some "t1")
           (revisions failing)).
  - discriminate.
  - reflexivity.
Defined.

Lemma entry_outlives_failed_update_witness :
  (∃ m, fst (CaseLog.addCaseLogEntry clerk "u1" "c1" "Hearing adjourned." no_cases)
        = Fulfilled (CaseLog.Error m))
  ∧ CaseLog.entries (snd (CaseLog.addCaseLogEntry clerk "u1" "c1" "Hearing adjourned." no_cases))
      !! ("u1", "c1", "e1")
    = Some {| CaseLog.entry := "Hearing adjourned."; CaseLog.e_createdAt := 1700000000%Z |}
  ∧ CaseLog.cases (snd (CaseLog.addCaseLogEntry clerk "u1" "c1" "Hearing adjourned." no_cases))
    = ∅.
Proof.
  apply (entry_outlives_failed_update clerk "u1" "c1" "Hearing adjourned." no_cases "e1");
    first [discriminate | reflexivity | left; reflexivity].
Defined.

End LastInstances.
